(** * stripe-service: payment webhook fulfillment

    A shallow embedding of the Python sources

      - [models.py]                              (the [users] table)
      - [payment-link.py]                        (Payment Link Issuer)
      - [fullfillment-service/fullfillment.py]   (Fulfillment Resolver, variant 1)
      - [fullfillment-service/webhook-handler.py](dispatcher + resolver + invoices)
      - [fullfillment-service/main.py]           (dispatcher with background tasks)

    The payment provider SDK ([stripe]) is an external collaborator: its
    calls are fields of an environment record.  The ORM session is modelled
    as explicit state: the committed table, the pending (dirty) instances,
    plain Python attributes set on instances, and a trace of the operations
    issued.  Python exceptions are an error type threaded by a small state
    and error monad.  Calls to [logger] and [print] have no effect on the
    store or on the control flow and are left out. *)

From Stdlib Require Import ZArith String Ascii List Lia Bool.
From Stdlib Require Import DecimalString DecimalPos DecimalZ.
From stdpp Require Import base option gmap strings.

Local Open Scope Z_scope.
Local Open Scope string_scope.

(* ===================================================================== *)
(** * Python builtins used by the sources: [str(int)] and [int(str)]     *)
(* ===================================================================== *)

Module Py.

(** [str(n)] for an [int]: optional minus sign, decimal digits, no leading
    zeros, ["0"] for zero.  The interpreter's cap on the number of digits
    converted (4300 by default) is not modelled, here or in [int]. *)
Definition str (n : Z) : string := NilZero.string_of_int (Z.to_int n).

(** ASCII whitespace skipped by [int()] around a literal: tab, LF, VT, FF,
    CR and space. *)
Definition is_space (c : ascii) : bool :=
  let n := nat_of_ascii c in
  ((9 <=? n)%nat && (n <=? 13)%nat) || (n =? 32)%nat.

Definition digit_of (c : ascii) : option Z :=
  let n := nat_of_ascii c in
  if ((48 <=? n)%nat && (n <=? 57)%nat) then Some (Z.of_nat n - 48) else None.

Fixpoint lstrip (s : string) : string :=
  match s with
  | String c s' => if is_space c then lstrip s' else s
  | EmptyString => EmptyString
  end.

(** [rstrip s] drops the maximal whitespace suffix. *)
Fixpoint rstrip (s : string) : string :=
  match s with
  | EmptyString => EmptyString
  | String c s' =>
      match rstrip s' with
      | EmptyString => if is_space c then EmptyString else String c EmptyString
      | t => String c t
      end
  end.

Definition strip (s : string) : string := rstrip (lstrip s).

(** Digits with single underscores allowed between digits
    ([int("1_000") == 1000]; ["_1"], ["1_"], ["1__0"] are rejected).
    [prev] tells whether the previous character was a digit. *)
Fixpoint parse_digits (acc : Z) (prev : bool) (s : string) : option Z :=
  match s with
  | EmptyString => if prev then Some acc else None
  | String c s' =>
      match digit_of c with
      | Some d => parse_digits (10 * acc + d) true s'
      | None =>
          if Ascii.eqb c "_" && prev then parse_digits acc false s' else None
      end
  end.

(** [int(s)] in base 10 for a literal made of ASCII characters; [None]
    stands for [ValueError]. *)
Definition int_ascii (s : string) : option Z :=
  match strip s with
  | String "-" r => Z.opp <$> parse_digits 0 false r
  | String "+" r => parse_digits 0 false r
  | t => parse_digits 0 false t
  end.

(** A Python [str] is held as its UTF-8 bytes.  [utf8_decode] gives the
    code points back; it refuses bytes that encode no string (stray
    continuation bytes, overlong forms, values above U+10FFFF). *)
Definition continuation (c : ascii) : option N :=
  let b := N_of_ascii c in
  if ((128 <=? b) && (b <=? 191))%N then Some (b - 128)%N else None.

Fixpoint utf8_decode (s : string) : option (list N) :=
  match s with
  | EmptyString => Some []
  | String c0 r0 =>
      let b0 := N_of_ascii c0 in
      if (b0 <? 128)%N then cons b0 <$> utf8_decode r0
      else if ((192 <=? b0) && (b0 <? 224))%N then
        match r0 with
        | String c1 r1 =>
            match continuation c1 with
            | Some x1 =>
                let cp := ((b0 - 192) * 64 + x1)%N in
                if (128 <=? cp)%N then cons cp <$> utf8_decode r1 else None
            | None => None
            end
        | EmptyString => None
        end
      else if ((224 <=? b0) && (b0 <? 240))%N then
        match r0 with
        | String c1 (String c2 r2) =>
            match continuation c1, continuation c2 with
            | Some x1, Some x2 =>
                let cp := ((b0 - 224) * 4096 + x1 * 64 + x2)%N in
                if (2048 <=? cp)%N then cons cp <$> utf8_decode r2 else None
            | _, _ => None
            end
        | _ => None
        end
      else if ((240 <=? b0) && (b0 <? 248))%N then
        match r0 with
        | String c1 (String c2 (String c3 r3)) =>
            match continuation c1, continuation c2, continuation c3 with
            | Some x1, Some x2, Some x3 =>
                let cp := ((b0 - 240) * 262144 + x1 * 4096 + x2 * 64 + x3)%N in
                if ((65536 <=? cp) && (cp <=? 1114111))%N
                then cons cp <$> utf8_decode r3 else None
            | _, _, _ => None
            end
        | _ => None
        end
      else None
  end.

(** The interpreter's character database (Unicode 14.0, CPython 3.11):
    the white-space characters above ASCII, and the zero of each run of
    ten decimal digits. *)
Definition unicode_spaces : list N :=
  [133; 160; 5760; 8192; 8193; 8194; 8195; 8196; 8197; 8198; 8199; 8200;
   8201; 8202; 8232; 8233; 8239; 8287; 12288]%N.

Definition decimal_zeros : list N :=
  [48; 1632; 1776; 1984; 2406; 2534; 2662; 2790; 2918; 3046; 3174; 3302;
   3430; 3558; 3664; 3792; 3872; 4160; 4240; 6112; 6160; 6470; 6608; 6784;
   6800; 6992; 7088; 7232; 7248; 42528; 43216; 43264; 43472; 43504; 43600;
   44016; 65296; 66720; 68912; 69734; 69872; 69942; 70096; 70384; 70736;
   70864; 71248; 71360; 71472; 71904; 72016; 72784; 73040; 73120; 92768;
   92864; 93008; 120782; 120792; 120802; 120812; 120822; 123200; 123632;
   125264; 130032]%N.

Definition is_unicode_space (cp : N) : bool := existsb (N.eqb cp) unicode_spaces.

Definition to_decimal (cp : N) : option N :=
  match List.find (fun z => ((z <=? cp) && (cp <? z + 10))%N) decimal_zeros with
  | Some z => Some (cp - z)%N
  | None => None
  end.

(** What [int()] makes of a character before parsing: ASCII is kept, a
    white-space character becomes a space, a decimal digit of any script
    becomes its ASCII digit, and anything else is no part of a literal. *)
Definition to_ascii (cp : N) : ascii :=
  if (cp <? 127)%N then ascii_of_N cp
  else if is_unicode_space cp then " "%char
  else match to_decimal cp with
       | Some d => ascii_of_N (48 + d)
       | None => "?"%char
       end.

(** [int(s)] in base 10; [None] stands for [ValueError]. *)
Definition int (s : string) : option Z :=
  match utf8_decode s with
  | Some cps => int_ascii (string_of_list_ascii (map to_ascii cps))
  | None => None
  end.

(** Truthiness of an optional string ([if not x]): [None] and [""] are
    falsy. *)
Definition truthy_str (o : option string) : option string :=
  match o with
  | Some EmptyString => None
  | o => o
  end.

(** Value of a decimal digit list read left to right from [acc]. *)
Fixpoint uint_val (acc : Z) (d : Decimal.uint) : Z :=
  match d with
  | Decimal.Nil => acc
  | Decimal.D0 d => uint_val (10 * acc + 0) d
  | Decimal.D1 d => uint_val (10 * acc + 1) d
  | Decimal.D2 d => uint_val (10 * acc + 2) d
  | Decimal.D3 d => uint_val (10 * acc + 3) d
  | Decimal.D4 d => uint_val (10 * acc + 4) d
  | Decimal.D5 d => uint_val (10 * acc + 5) d
  | Decimal.D6 d => uint_val (10 * acc + 6) d
  | Decimal.D7 d => uint_val (10 * acc + 7) d
  | Decimal.D8 d => uint_val (10 * acc + 8) d
  | Decimal.D9 d => uint_val (10 * acc + 9) d
  end.

Definition no_space (s : string) : Prop :=
  Forall (fun c => is_space c = false) (list_ascii_of_string s).

(** Literals made of characters below DEL. *)
Definition plain (s : string) : Prop :=
  Forall (fun c => (N_of_ascii c < 127)%N) (list_ascii_of_string s).

End Py.

(* ===================================================================== *)
(** * Exceptions, the ORM session and the provider SDK                    *)
(* ===================================================================== *)

(** Python exceptions raised or caught by the sources. *)
Inductive Exn : Type :=
| ValueError (msg : string)
| SignatureVerificationError
| HTTPException (status_code : Z) (detail : string)
| StripeError (msg : string)
| SQLAlchemyError (msg : string).

Definition exn_message (e : Exn) : string :=
  match e with
  | ValueError m | StripeError m | SQLAlchemyError m => m
  | SignatureVerificationError => "signature verification failed"
  | HTTPException _ d => d
  end.

Inductive Result (A : Type) : Type :=
| Ok (a : A)
| Raise (e : Exn).
Arguments Ok {A} a.
Arguments Raise {A} e.

(** ** models.py: the [users] table *)

Module Models.

(** A row of [users].  The primary key [id] is the key under which the
    row is stored in the table map. *)
Record User : Type := mkUser {
  email : string;
  hashed_password : string;
  name : string;
  referral_code : string;
  referrer_id : option Z;
  has_access : bool
}.

Definition set_has_access (v : bool) (u : User) : User :=
  {| email := email u; hashed_password := hashed_password u; name := name u;
     referral_code := referral_code u; referrer_id := referrer_id u;
     has_access := v |}.

(** Boolean columns of the mapped class: an assignment to any other
    attribute name is a plain Python attribute of the instance and is not
    part of the unit of work. *)
Definition is_bool_column (attr : string) : bool := String.eqb attr "has_access".

End Models.

(** ** The SQLAlchemy session *)

Inductive DbOp : Type :=
| OpQuery (uid : Z)
| OpSetAttr (uid : Z) (attr : string) (v : bool)
| OpAdd (uid : Z)
| OpCommit
| OpRollback
| OpClose.

Record Db : Type := mkDb {
  table : gmap Z Models.User;          (* committed rows, by primary key *)
  pending : gmap Z Models.User;        (* dirty instances not yet committed *)
  attrs : gmap (Z * string) bool;      (* unmapped attributes of instances *)
  commit_fails : bool;                 (* the database rejects the next commits *)
  query_fails : bool;                  (* the database rejects the next queries *)
  trace : list DbOp                    (* operations issued, oldest first *)
}.

Definition log (op : DbOp) (db : Db) : Db :=
  {| table := table db; pending := pending db; attrs := attrs db;
     commit_fails := commit_fails db; query_fails := query_fails db;
     trace := trace db ++ [op] |}.

(** State and error monad: the state survives a raised exception. *)
Definition M (A : Type) : Type := Db -> Result A * Db.

Global Instance M_ret : MRet M := fun A a db => (Ok a, db).
Global Instance M_bind : MBind M := fun A B f m db =>
  match m db with
  | (Ok a, db') => f a db'
  | (Raise e, db') => (Raise e, db')
  end.

Definition raise {A} (e : Exn) : M A := fun db => (Raise e, db).

(** A value or an exception coming from outside the store. *)
Definition lift {A} (r : Result A) : M A := fun db => (r, db).

(** [try: m except Exception as e: h e] *)
Definition try_except {A} (m : M A) (h : Exn -> M A) : M A := fun db =>
  match m db with
  | (Raise e, db') => h e db'
  | r => r
  end.

(** [try: m finally: f] *)
Definition try_finally {A} (m : M A) (f : M unit) : M A := fun db =>
  match m db with
  | (r, db') =>
      match f db' with
      | (Ok _, db'') => (r, db'')
      | (Raise e, db'') => (Raise e, db'')
      end
  end.

(** [int(s)] as a computation raising [ValueError]. *)
Definition py_int {A} (s : string) (k : Z -> M A) : M A :=
  match Py.int s with
  | Some n => k n
  | None => raise (ValueError ("invalid literal for int() with base 10: " ++ s))
  end.

(** The instance a lookup by primary key loads: the dirty one if there is
    one, the committed row otherwise; none while the database does not
    answer queries. *)
Definition find_user (db : Db) (uid : Z) : option Models.User :=
  if query_fails db then None else (pending db ∪ table db) !! uid.
Global Arguments find_user : simpl never.

(** [db.query(User).filter(User.id == uid).first()]: the query is issued,
    and raises when the database does not answer. *)
Definition query_first (uid : Z) : M (option Models.User) := fun db =>
  if query_fails db
  then (Raise (SQLAlchemyError "query failed"), log (OpQuery uid) db)
  else (Ok (find_user db uid), log (OpQuery uid) db).

(** [user.<attr> = v] on the instance loaded for primary key [uid]. *)
Definition setattr (uid : Z) (attr : string) (v : bool) : M unit := fun db =>
  let db := log (OpSetAttr uid attr v) db in
  if Models.is_bool_column attr then
    match find_user db uid with
    | Some u =>
        (Ok tt, {| table := table db;
                   pending := <[uid := Models.set_has_access v u]> (pending db);
                   attrs := attrs db; commit_fails := commit_fails db;
                   query_fails := query_fails db; trace := trace db |})
    | None => (Ok tt, db)
    end
  else
    (Ok tt, {| table := table db; pending := pending db;
               attrs := <[(uid, attr) := v]> (attrs db);
               commit_fails := commit_fails db; query_fails := query_fails db;
               trace := trace db |}).

(** [db.add(user)] for an instance that already belongs to the session. *)
Definition add (uid : Z) : M unit := fun db => (Ok tt, log (OpAdd uid) db).

(** [db.commit()]: flush the dirty instances into the table. *)
Definition commit : M unit := fun db =>
  let db := log OpCommit db in
  if commit_fails db then (Raise (SQLAlchemyError "commit failed"), db)
  else (Ok tt, {| table := pending db ∪ table db; pending := ∅;
                  attrs := attrs db; commit_fails := commit_fails db;
                  query_fails := query_fails db; trace := trace db |}).

(** [db.rollback()] *)
Definition rollback : M unit := fun db =>
  let db := log OpRollback db in
  (Ok tt, {| table := table db; pending := ∅; attrs := attrs db;
             commit_fails := commit_fails db; query_fails := query_fails db;
             trace := trace db |}).

(** [db.close()]: the instances of the session are gone. *)
Definition close : M unit := fun db =>
  let db := log OpClose db in
  (Ok tt, {| table := table db; pending := ∅; attrs := ∅;
             commit_fails := commit_fails db; query_fails := query_fails db;
             trace := trace db |}).

(** [SessionLocal()]: a new session on the same database. *)
Definition SessionLocal : M unit := fun db =>
  (Ok tt, {| table := table db; pending := ∅; attrs := ∅;
             commit_fails := commit_fails db; query_fails := query_fails db;
             trace := trace db |}).

(** An operation that writes to the store. *)
Definition is_write (op : DbOp) : bool :=
  match op with
  | OpSetAttr _ _ _ | OpAdd _ | OpCommit | OpRollback => true
  | OpQuery _ | OpClose => false
  end.

(** ** Provider objects *)

Record CheckoutSession : Type := mkSession {
  payment_status : string;
  metadata : gmap string string
}.

(** The [data.object] of an event: a checkout session, an invoice or a
    subscription schedule, reduced to the keys the handlers read. *)
Record StripeObject : Type := mkObject {
  obj_id : string;
  obj_subscription : option string;
  obj_metadata : gmap string string
}.

Record Event : Type := mkEvent {
  ev_type : string;
  ev_object : StripeObject
}.

Record PaymentLinkParams : Type := mkParams {
  line_items : list (string * Z);      (* price identifier, quantity *)
  link_metadata : gmap string string;
  custom_message : string
}.

Record Request : Type := mkRequest {
  body : string;
  headers : gmap string string
}.

(** The vendor SDK and the process environment. *)
Record Env : Type := mkEnv {
  Session_retrieve : string -> Result CheckoutSession;
  Webhook_construct_event : string -> option string -> option string -> Result Event;
  PaymentLink_create : PaymentLinkParams -> Result string;
  getenv : string -> option string
}.

(** ** HTTP responses as the framework produces them *)

Inductive Body : Type :=
| Json (fields : list (string * string))
| Text (s : string).

Record Response : Type := mkResponse {
  status : Z;
  content : Body
}.

(** A returned value is a 200 response, an [HTTPException] is a response
    with its status code, any other exception is a 500. *)
Definition http_response (r : Result Body) : Response :=
  match r with
  | Ok b => {| status := 200; content := b |}
  | Raise (HTTPException code detail) =>
      {| status := code; content := Json [("detail", detail)] |}
  | Raise _ => {| status := 500; content := Text "Internal Server Error" |}
  end.

Definition success_ack : Body := Json [("status", "success")].

(* ===================================================================== *)
(** * fullfillment-service/fullfillment.py                                *)
(* ===================================================================== *)

Module Fullfillment.

(** [fulfill_service(session_id, db)].  The whole body sits in one
    [try ... except Exception], which prints and returns [False]. *)
Definition fulfill_service (env : Env) (session_id : string) : M bool :=
  try_except
    (session ← lift (Session_retrieve env session_id);
     if negb (String.eqb (payment_status session) "paid") then mret false
     else
       match Py.truthy_str (metadata session !! "cartID") with
       | None => raise (ValueError "cartID is missing from metadata.")
       | Some cart_id =>
           py_int cart_id (fun uid =>
             user ← query_first uid;
             match user with
             | None =>
                 raise (ValueError ("User with cartID " ++ cart_id ++ " not found."))
             | Some u =>
                 (if negb (Models.has_access u)
                  then setattr uid "has_access" true ;; commit
                  else mret tt) ;;
                 mret true
             end)
       end)
    (fun _ => mret false).

End Fullfillment.

(* ===================================================================== *)
(** * fullfillment-service/webhook-handler.py                             *)
(* ===================================================================== *)

Module WebhookHandler.

(** [os.getenv("STRIPE_WEBHOOK_SECRET", "")] *)
Definition STRIPE_WEBHOOK_SECRET (env : Env) : string :=
  default "" (getenv env "STRIPE_WEBHOOK_SECRET").

(** Placeholder helpers of the source. *)
Definition is_session_already_fulfilled (session_id : string) : bool := false.
Definition mark_session_as_fulfilled (session_id : string) : M unit := mret tt.

(** [fulfill_service(session_id, db) -> bool] *)
Definition fulfill_service (env : Env) (session_id : string) : M bool :=
  match Session_retrieve env session_id with
  | Raise _ => mret false
  | Ok session =>
      if negb (String.eqb (payment_status session) "paid") then mret false
      else
        match Py.truthy_str (metadata session !! "cartID") with
        | None => mret false
        | Some user_id_str =>
            match Py.int user_id_str with
            | None => mret false
            | Some user_id =>
                user ← query_first user_id;
                match user with
                | None => mret false
                | Some _ =>
                    try_except
                      (setattr user_id "has_platform_access" true ;;
                       commit ;;
                       mret true)
                      (fun _ => rollback ;; mret false)
                end
            end
        end
  end.

(** [extract_user_id_from_invoice(invoice)]; [None] is Python's [None].
    The subscription branch is [pass]; the customer lookup is commented
    out in the source. *)
Definition extract_user_id_from_invoice (invoice : StripeObject) : option Z :=
  match Py.truthy_str (obj_metadata invoice !! "user_id") with
  | Some user_id_str => Py.int user_id_str
  | None =>
      match obj_subscription invoice with
      | Some subscription_id => None
      | None => None
      end
  end.

(** [if not user_id]: [None] and [0] are falsy. *)
Definition truthy_id (o : option Z) : option Z :=
  match o with
  | Some 0 => None
  | o => o
  end.

(** [handle_invoice_payment_succeeded(invoice, db)] *)
Definition handle_invoice_payment_succeeded (invoice : StripeObject) : M unit :=
  match truthy_id (extract_user_id_from_invoice invoice) with
  | None => mret tt
  | Some user_id =>
      user ← query_first user_id;
      match user with
      | None => mret tt
      | Some _ =>
          try_except
            (setattr user_id "has_platform_access" true ;; commit)
            (fun _ => rollback)
      end
  end.

(** [handle_invoice_payment_failed(invoice, db)] *)
Definition handle_invoice_payment_failed (invoice : StripeObject) : M unit :=
  match truthy_id (extract_user_id_from_invoice invoice) with
  | None => mret tt
  | Some user_id =>
      user ← query_first user_id;
      match user with
      | None => mret tt
      | Some _ =>
          try_except
            (setattr user_id "has_platform_access" false ;; commit)
            (fun _ => rollback)
      end
  end.

Definition is_checkout_event (event_type : string) : bool :=
  String.eqb event_type "checkout.session.completed"
  || String.eqb event_type "checkout.session.async_payment_succeeded".

(** [stripe_webhook(request, db)]: only [SignatureVerificationError] is
    caught around [construct_event]. *)
Definition stripe_webhook (env : Env) (request : Request) : M Body :=
  match Webhook_construct_event env (body request)
          (headers request !! "stripe-signature")
          (Some (STRIPE_WEBHOOK_SECRET env)) with
  | Raise SignatureVerificationError =>
      raise (HTTPException 400 "Invalid webhook signature")
  | Raise e => raise e
  | Ok event =>
      let event_type := ev_type event in
      (if is_checkout_event event_type then
         success ← fulfill_service env (obj_id (ev_object event));
         if negb success
         then raise (HTTPException 500 "Failed to fulfill the service")
         else mret tt
       else if String.eqb event_type "invoice.payment_succeeded" then
         handle_invoice_payment_succeeded (ev_object event)
       else if String.eqb event_type "invoice.payment_failed" then
         handle_invoice_payment_failed (ev_object event)
       else if String.eqb event_type "subscription_schedule.completed" then
         mret tt
       else if String.eqb event_type "subscription_schedule.created" then
         mret tt
       else mret tt) ;;
      mret success_ack
  end.

End WebhookHandler.

(* ===================================================================== *)
(** * fullfillment-service/main.py                                        *)
(* ===================================================================== *)

Module Main.

Definition endpoint_secret (env : Env) : option string :=
  getenv env "STRIPE_ENDPOINT_SECRET".

Definition is_session_already_fulfilled (session_id : string) : bool := false.
Definition mark_session_as_fulfilled (session_id : string) : M unit := mret tt.

(** Work handed to [background_tasks.add_task]. *)
Inductive Task : Type :=
| TaskFulfillOrder (session_id : string)
| TaskSubscriptionRenewal (invoice : StripeObject)
| TaskFailedPayment (invoice : StripeObject).

(** [fulfill_order(session_id)]: returns nothing; opens its own session. *)
Definition fulfill_order (env : Env) (session_id : string) : M unit :=
  match Session_retrieve env session_id with
  | Raise _ => mret tt
  | Ok session =>
      if negb (String.eqb (payment_status session) "paid") then mret tt
      else
        match Py.truthy_str (metadata session !! "cartID") with
        | None => mret tt
        | Some user_id_str =>
            match Py.int user_id_str with
            | None => mret tt
            | Some user_id =>
                if is_session_already_fulfilled session_id then mret tt
                else
                  SessionLocal ;;
                  try_finally
                    (try_except
                       (user ← query_first user_id;
                        match user with
                        | Some _ =>
                            setattr user_id "has_platform_access" true ;;
                            add user_id ;;
                            commit ;;
                            mark_session_as_fulfilled session_id
                        | None => mret tt
                        end)
                       (fun _ => rollback))
                    close
            end
        end
  end.

(** [handle_subscription_renewal(invoice)]: logs only. *)
Definition handle_subscription_renewal (invoice : StripeObject) : M unit := mret tt.

(** [handle_failed_payment(invoice)]: logs only. *)
Definition handle_failed_payment (invoice : StripeObject) : M unit := mret tt.

Definition is_checkout_event (event_type : string) : bool :=
  String.eqb event_type "checkout.session.completed"
  || String.eqb event_type "checkout.session.async_payment_succeeded".

(** [stripe_webhook(request, background_tasks)]: the returned value and
    the tasks queued for after the response.  It has no store handle. *)
Definition stripe_webhook (env : Env) (request : Request) : Result Body * list Task :=
  match Webhook_construct_event env (body request)
          (headers request !! "stripe-signature") (endpoint_secret env) with
  | Raise (ValueError _) => (Raise (HTTPException 400 "Invalid payload"), [])
  | Raise SignatureVerificationError =>
      (Raise (HTTPException 400 "Invalid signature"), [])
  | Raise e => (Raise e, [])
  | Ok event =>
      let event_type := ev_type event in
      let tasks :=
        if is_checkout_event event_type then
          [TaskFulfillOrder (obj_id (ev_object event))]
        else if String.eqb event_type "invoice.payment_succeeded" then
          [TaskSubscriptionRenewal (ev_object event)]
        else if String.eqb event_type "invoice.payment_failed" then
          [TaskFailedPayment (ev_object event)]
        else [] in
      (Ok success_ack, tasks)
  end.

Definition run_task (env : Env) (t : Task) : M unit :=
  match t with
  | TaskFulfillOrder session_id => fulfill_order env session_id
  | TaskSubscriptionRenewal invoice => handle_subscription_renewal invoice
  | TaskFailedPayment invoice => handle_failed_payment invoice
  end.

(** Background tasks run one after the other once the response is sent;
    a task that raises stops the remaining ones, and nothing of it
    reaches the response. *)
Fixpoint run_tasks (env : Env) (ts : list Task) (db : Db) : Db :=
  match ts with
  | [] => db
  | t :: ts' =>
      match run_task env t db with
      | (Ok _, db') => run_tasks env ts' db'
      | (Raise _, db') => db'
      end
  end.

(** One request through the framework: the response, and the store after
    the background tasks. *)
Definition serve (env : Env) (request : Request) (db : Db) : Response * Db :=
  let '(r, tasks) := stripe_webhook env request in
  (http_response r, run_tasks env tasks db).

End Main.

(* ===================================================================== *)
(** * payment-link.py                                                     *)
(* ===================================================================== *)

Module PaymentLink.

Definition PRICE_IDS : gmap string string :=
  <["bronze" := "price_1QhzfBIZhbjcBaqMHUSuptHA"]>
  (<["silver" := "price_1QhzfAIZhbjcBaqMSilverXXX"]>
  (<["gold" := "price_1QhzfAIZhbjcBaqMGoldXXX"]> ∅)).

Record PaymentLinkRequest : Type := mkReq {
  user_id : Z;
  plan : string
}.

Definition upper (c : ascii) : ascii :=
  let n := nat_of_ascii c in
  if ((97 <=? n)%nat && (n <=? 122)%nat) then ascii_of_nat (n - 32) else c.

Definition lower (c : ascii) : ascii :=
  let n := nat_of_ascii c in
  if ((65 <=? n)%nat && (n <=? 90)%nat) then ascii_of_nat (n + 32) else c.

Fixpoint map_string (f : ascii -> ascii) (s : string) : string :=
  match s with
  | EmptyString => EmptyString
  | String c s' => String (f c) (map_string f s')
  end.

(** [s.capitalize()] on ASCII. *)
Definition capitalize (s : string) : string :=
  match s with
  | EmptyString => EmptyString
  | String c s' => String (upper c) (map_string lower s')
  end.

(** The arguments of [stripe.PaymentLink.create]. *)
Definition payment_link_params (request : PaymentLinkRequest) (price : string)
  : PaymentLinkParams :=
  {| line_items := [(price, 1)];
     link_metadata := {[ "cartID" := Py.str (user_id request) ]};
     custom_message :=
       "Thank you for subscribing to the " ++ capitalize (plan request) ++ " plan!" |}.

(** [create_payment_link(request, db)].  [db] is the session injected by
    the framework; the source names its provider [get_db] without
    importing it, the body is taken as written. *)
Definition create_payment_link (env : Env) (request : PaymentLinkRequest) : M Body :=
  user ← query_first (user_id request);
  match user with
  | None => raise (HTTPException 404 "User not found")
  | Some _ =>
      match PRICE_IDS !! plan request with
      | None => raise (HTTPException 400 "Invalid subscription plan")
      | Some price =>
          match PaymentLink_create env (payment_link_params request price) with
          | Ok url => mret (Json [("payment_link_url", url)])
          | Raise e =>
              raise (HTTPException 500
                       ("Failed to create payment link: " ++ exn_message e))
          end
      end
  end.

End PaymentLink.

(* ===================================================================== *)
(** * Vocabulary of the properties                                        *)
(* ===================================================================== *)


(** A paid session whose correlation key resolves to the user [u] stored
    under [uid]. *)
Definition resolves_to (env : Env) (db : Db) (session_id : string)
    (uid : Z) (u : Models.User) : Prop :=
  exists s v,
    Session_retrieve env session_id = Ok s /\ payment_status s = "paid"
    /\ metadata s !! "cartID" = Some v /\ Py.int v = Some uid
    /\ find_user db uid = Some u.

(** Every variant of the resolver reads the key the same way: the
    "cartID" entry, if truthy, through [int]. *)
Definition cart_user_id (m : gmap string string) : option Z :=
  Py.truthy_str (m !! "cartID") ≫= Py.int.

(** The invoice with one more metadata entry under "cartID". *)
Definition with_cart_id (v : string) (invoice : StripeObject) : StripeObject :=
  {| obj_id := obj_id invoice; obj_subscription := obj_subscription invoice;
     obj_metadata := <["cartID" := v]> (obj_metadata invoice) |}.

Definition ack_response : Response := {| status := 200; content := success_ack |}.


Definition internal_error_response : Response :=
  {| status := 500; content := Text "Internal Server Error" |}.

(* ===================================================================== *)
(** * A concrete world: user 42 and checkout session [cs_1]               *)
(* ===================================================================== *)

Module Scenario.

Definition user42 : Models.User :=
  {| Models.email := "u42@example.com"; Models.hashed_password := "x";
     Models.name := "U"; Models.referral_code := "R42";
     Models.referrer_id := None; Models.has_access := false |}.

Definition user7 : Models.User :=
  {| Models.email := "u7@example.com"; Models.hashed_password := "y";
     Models.name := "V"; Models.referral_code := "R7";
     Models.referrer_id := None; Models.has_access := false |}.

Definition db_of (rows : gmap Z Models.User) : Db :=
  {| table := rows; pending := ∅; attrs := ∅;
     commit_fails := false; query_fails := false; trace := [] |}.

(** Users 7 and 42 exist, neither has access. *)
Definition db0 : Db := db_of (<[42 := user42]> (<[7 := user7]> ∅)).

(** The same store once user 42 has been granted access. *)
Definition db_granted : Db :=
  db_of (<[42 := Models.set_has_access true user42]> (<[7 := user7]> ∅)).

Definition cs_1 : CheckoutSession :=
  {| payment_status := "paid"; metadata := {[ "cartID" := "42" ]} |}.
Definition cs_unpaid : CheckoutSession :=
  {| payment_status := "unpaid"; metadata := {[ "cartID" := "42" ]} |}.
Definition cs_nokey : CheckoutSession :=
  {| payment_status := "paid"; metadata := ∅ |}.
Definition cs_badkey : CheckoutSession :=
  {| payment_status := "paid"; metadata := {[ "cartID" := "forty-two" ]} |}.
Definition cs_nouser : CheckoutSession :=
  {| payment_status := "paid"; metadata := {[ "cartID" := "99" ]} |}.

Definition in_1 : StripeObject :=
  {| obj_id := "in_1"; obj_subscription := Some "sub_1";
     obj_metadata := {[ "user_id" := "42" ]} |}.
Definition in_cart : StripeObject :=
  {| obj_id := "in_2"; obj_subscription := Some "sub_1";
     obj_metadata := {[ "cartID" := "42" ]} |}.
Definition cs_obj (sid : string) : StripeObject :=
  {| obj_id := sid; obj_subscription := None; obj_metadata := ∅ |}.

Definition mk_request (payload : string) : Request :=
  {| body := payload; headers := {[ "stripe-signature" := "t=1,v1=ok" ]} |}.

(** The provider: five sessions; the event verifier accepts the bodies
    ["completed"], ["unpaid"] and ["failed"], rejects ["garbled"] as an
    invalid payload and everything else as a bad signature. *)
Definition env0 : Env :=
  {| Session_retrieve := fun sid =>
       if String.eqb sid "cs_1" then Ok cs_1
       else if String.eqb sid "cs_unpaid" then Ok cs_unpaid
       else if String.eqb sid "cs_nokey" then Ok cs_nokey
       else if String.eqb sid "cs_badkey" then Ok cs_badkey
       else if String.eqb sid "cs_nouser" then Ok cs_nouser
       else Raise (StripeError "No such checkout.session");
     Webhook_construct_event := fun payload sig secret =>
       if String.eqb payload "completed"
       then Ok {| ev_type := "checkout.session.completed"; ev_object := cs_obj "cs_1" |}
       else if String.eqb payload "unpaid"
       then Ok {| ev_type := "checkout.session.completed"; ev_object := cs_obj "cs_unpaid" |}
       else if String.eqb payload "failed"
       then Ok {| ev_type := "invoice.payment_failed"; ev_object := in_1 |}
       else if String.eqb payload "garbled"
       then Raise (ValueError "Expecting value: line 1 column 1 (char 0)")
       else Raise SignatureVerificationError;
     PaymentLink_create := fun _ => Ok "https://buy.stripe.com/test_1";
     getenv := fun _ => None |}.

End Scenario.

(* ===================================================================== *)
(** * More of the concrete world: outages and other events                *)
(* ===================================================================== *)

(** The provider delivers at least once: [n] deliveries of one session,
    one after the other, through a fulfillment function. *)
Fixpoint redeliver (fulfill : M bool) (n : nat) (db : Db) : Db :=
  match n with
  | O => db
  | S n' => redeliver fulfill n' (snd (fulfill db))
  end.

Module Outage.

(** The store of [Scenario.db0] while the database rejects commits. *)
Definition db_down : Db :=
  {| table := table Scenario.db0; pending := ∅; attrs := ∅;
     commit_fails := true; query_fails := false; trace := [] |}.

(** The store of [Scenario.db_granted] while the database rejects
    queries. *)
Definition db_deaf : Db :=
  {| table := table Scenario.db_granted; pending := ∅; attrs := ∅;
     commit_fails := false; query_fails := true; trace := [] |}.

(** A store in which a user is stored under the identifier 0. *)
Definition db_zero : Db := Scenario.db_of (<[0 := Scenario.user7]> ∅).

Definition in_zero : StripeObject :=
  {| obj_id := "in_0"; obj_subscription := None;
     obj_metadata := {[ "user_id" := "0" ]} |}.

Definition in_unknown : StripeObject :=
  {| obj_id := "in_9"; obj_subscription := None;
     obj_metadata := {[ "user_id" := "99" ]} |}.

Definition schedule : StripeObject :=
  {| obj_id := "sub_sched_1"; obj_subscription := None; obj_metadata := ∅ |}.

(** A provider whose verifier accepts four more bodies and whose
    payment-link API is down. *)
Definition env1 : Env :=
  {| Session_retrieve := Session_retrieve Scenario.env0;
     Webhook_construct_event := fun payload sig secret =>
       if String.eqb payload "renewed"
       then Ok {| ev_type := "invoice.payment_succeeded"; ev_object := Scenario.in_1 |}
       else if String.eqb payload "scheduled"
       then Ok {| ev_type := "subscription_schedule.created"; ev_object := schedule |}
       else if String.eqb payload "deleted"
       then Ok {| ev_type := "customer.subscription.deleted"; ev_object := schedule |}
       else if String.eqb payload "timeout"
       then Raise (StripeError "connection timed out")
       else Webhook_construct_event Scenario.env0 payload sig secret;
     PaymentLink_create := fun _ => Raise (StripeError "api_connection_error");
     getenv := fun _ => None |}.

End Outage.

(* ===================================================================== *)
(** * Properties                                                          *)
(* ===================================================================== *)

(** ** Python builtins *)

Module PyFacts.

Import Py.

Example int_plain : int "42" = Some 42. Proof. reflexivity. Qed.
Example int_spaces : int "  -17 " = Some (-17). Proof. reflexivity. Qed.
Example int_underscore : int "1_000" = Some 1000. Proof. reflexivity. Qed.
Example int_leading_zero : int "007" = Some 7. Proof. reflexivity. Qed.
Example int_bad1 : int "1__0" = None. Proof. reflexivity. Qed.
Example int_bad2 : int "_1" = None. Proof. reflexivity. Qed.
Example int_bad3 : int "1_" = None. Proof. reflexivity. Qed.
Example int_bad4 : int "" = None. Proof. reflexivity. Qed.
Example int_bad5 : int "- 1" = None. Proof. reflexivity. Qed.
Example int_bad6 : int "abc" = None. Proof. reflexivity. Qed.
Example int_bad7 : int "4 2" = None. Proof. reflexivity. Qed.
Example int_vt : int (String (ascii_of_nat 11) "42") = Some 42.
Proof. reflexivity. Qed.
Example int_unit_separator : int (String (ascii_of_nat 31) "42") = None.
Proof. reflexivity. Qed.
Example int_arabic_indic : int "٤٢" = Some 42. Proof. reflexivity. Qed.
Example int_fullwidth_signed : int "-４_２" = Some (-42). Proof. reflexivity. Qed.
Example int_no_break_space : int " 42" = Some 42. Proof. reflexivity. Qed.
Example int_inner_space : int "4 2" = None. Proof. reflexivity. Qed.
Example int_accent : int "é" = None. Proof. reflexivity. Qed.
Example str_neg : str (-42) = "-42". Proof. reflexivity. Qed.
Example str_zero : str 0 = "0". Proof. reflexivity. Qed.

(** ** Round trip [int(str(n)) == n] *)

Section RoundTrip.

Lemma parse_digits_uint (d : Decimal.uint) :
  forall acc prev,
    d <> Decimal.Nil \/ prev = true ->
    parse_digits acc prev (NilEmpty.string_of_uint d) = Some (uint_val acc d).
Proof.
  induction d; intros acc prev H; simpl;
    try (rewrite IHd by (right; reflexivity); reflexivity).
  destruct H as [H | ->]; [congruence | reflexivity].
Qed.

Lemma uint_val_of_uint_acc (d : Decimal.uint) :
  forall acc : positive,
    uint_val (Z.pos acc) d = Z.pos (Pos.of_uint_acc d acc).
Proof.
  induction d; intros acc; simpl; try reflexivity;
    rewrite <- IHd; f_equal; lia.
Qed.

Lemma uint_val_of_uint (d : Decimal.uint) :
  uint_val 0 d = Z.of_N (Pos.of_uint d).
Proof.
  induction d; simpl;
    [reflexivity | assumption | apply (uint_val_of_uint_acc d) ..].
Qed.

Lemma uint_val_to_uint (p : positive) :
  uint_val 0 (Pos.to_uint p) = Z.pos p.
Proof.
  rewrite uint_val_of_uint, DecimalPos.Unsigned.of_to. reflexivity.
Qed.

Lemma rstrip_no_space (s : string) : no_space s -> rstrip s = s.
Proof.
  induction s as [|c s IH]; intros H; [reflexivity|].
  inversion H as [|? ? Hc Hs]; subst. simpl.
  rewrite (IH Hs), Hc. destruct s; reflexivity.
Qed.

Lemma lstrip_no_space (s : string) : no_space s -> lstrip s = s.
Proof.
  destruct s as [|c s]; intros H; [reflexivity|].
  inversion H as [|? ? Hc Hs]; subst. simpl. rewrite Hc. reflexivity.
Qed.

Lemma strip_no_space (s : string) : no_space s -> strip s = s.
Proof.
  intros H. unfold strip. rewrite (lstrip_no_space _ H).
  apply rstrip_no_space, H.
Qed.

Lemma no_space_uint (d : Decimal.uint) :
  no_space (NilEmpty.string_of_uint d).
Proof.
  induction d; simpl; constructor; (reflexivity || assumption).
Qed.

Lemma uint_first_char (d : Decimal.uint) (c : ascii) (r : string) :
  NilEmpty.string_of_uint d = String c r -> is_Some (digit_of c).
Proof.
  destruct d; simpl; intros [= <- _]; try discriminate; eexists; reflexivity.
Qed.

(** A literal without spaces that starts with a digit has no sign to
    strip. *)
Lemma int_digit_led (c : ascii) (r : string) :
  is_Some (digit_of c) -> no_space (String c r) ->
  int_ascii (String c r) = parse_digits 0 false (String c r).
Proof.
  intros [k Hk] Hs. unfold int_ascii. rewrite strip_no_space by assumption.
  destruct c as [[] [] [] [] [] [] [] []]; try reflexivity;
    discriminate Hk.
Qed.

Lemma string_of_uint_nonnil (p : positive) :
  NilZero.string_of_uint (Pos.to_uint p) = NilEmpty.string_of_uint (Pos.to_uint p).
Proof.
  pose proof (DecimalPos.Unsigned.to_uint_nonnil p) as Hn.
  destruct (Pos.to_uint p); [congruence | reflexivity ..].
Qed.

Lemma int_ascii_str_pos (p : positive) : int_ascii (str (Z.pos p)) = Some (Z.pos p).
Proof.
  unfold str. simpl.
  pose proof (DecimalPos.Unsigned.to_uint_nonnil p) as Hn.
  rewrite string_of_uint_nonnil.
  pose proof (no_space_uint (Pos.to_uint p)) as Hsp.
  pose proof (parse_digits_uint (Pos.to_uint p) 0 false (or_introl Hn)) as Hpd.
  destruct (NilEmpty.string_of_uint (Pos.to_uint p)) as [|c r] eqn:E.
  - destruct (Pos.to_uint p); simpl in E; congruence.
  - rewrite int_digit_led by (eauto using uint_first_char).
    rewrite Hpd, uint_val_to_uint. reflexivity.
Qed.

Lemma int_ascii_str_neg (p : positive) : int_ascii (str (Z.neg p)) = Some (Z.neg p).
Proof.
  unfold int_ascii, str. simpl.
  pose proof (DecimalPos.Unsigned.to_uint_nonnil p) as Hn.
  rewrite string_of_uint_nonnil, strip_no_space
    by (constructor; [reflexivity | apply no_space_uint]).
  rewrite parse_digits_uint by (left; exact Hn).
  rewrite uint_val_to_uint. reflexivity.
Qed.

(** On a literal of characters below DEL, decoding and the character
    database change nothing. *)
Lemma utf8_decode_plain (s : string) :
  plain s -> utf8_decode s = Some (map N_of_ascii (list_ascii_of_string s)).
Proof.
  induction s as [|c s IH]; intros H; [reflexivity|].
  inversion H as [|? ? Hc Hs]; subst.
  assert (E : (N_of_ascii c <? 128)%N = true) by (apply N.ltb_lt; lia).
  cbn [utf8_decode list_ascii_of_string map]. cbv zeta.
  rewrite E, (IH Hs). reflexivity.
Qed.

Lemma to_ascii_plain (l : list ascii) :
  Forall (fun c => (N_of_ascii c < 127)%N) l ->
  map to_ascii (map N_of_ascii l) = l.
Proof.
  induction 1 as [|c l Hc _ IH]; [reflexivity|].
  cbn [map]. rewrite IH. f_equal. unfold to_ascii.
  assert (E : (N_of_ascii c <? 127)%N = true) by (apply N.ltb_lt; exact Hc).
  rewrite E. apply ascii_N_embedding.
Qed.

Lemma int_plain_literal (s : string) : plain s -> int s = int_ascii s.
Proof.
  intros H. unfold int. rewrite (utf8_decode_plain _ H), (to_ascii_plain _ H).
  rewrite string_of_list_ascii_of_string. reflexivity.
Qed.

Lemma plain_uint (d : Decimal.uint) : plain (NilEmpty.string_of_uint d).
Proof.
  induction d; simpl; constructor; (assumption || (vm_compute; reflexivity)).
Qed.

Lemma plain_str (n : Z) : plain (str n).
Proof.
  destruct n as [|p|p]; unfold str; simpl.
  - repeat constructor.
  - rewrite string_of_uint_nonnil. apply plain_uint.
  - rewrite string_of_uint_nonnil. constructor; [vm_compute; reflexivity|].
    apply plain_uint.
Qed.

(** Parsing the printed form of any integer gives the integer back. *)
Lemma int_str (n : Z) : int (str n) = Some n.
Proof.
  rewrite (int_plain_literal _ (plain_str n)).
  destruct n as [|p|p];
    [reflexivity | apply int_ascii_str_pos | apply int_ascii_str_neg].
Qed.

(** The printed form of an integer is never the empty string, so it is
    truthy. *)
Lemma str_nonempty (n : Z) : str n <> EmptyString.
Proof.
  intros H. pose proof (int_str n) as Hi. rewrite H in Hi. discriminate.
Qed.

End RoundTrip.

End PyFacts.

(** ** The scenario, run *)

Module ScenarioRuns.

Import Scenario.

Example first_fulfillment :
  fst (Fullfillment.fulfill_service env0 "cs_1" db0) = Ok true
  /\ table (snd (Fullfillment.fulfill_service env0 "cs_1" db0)) = table db_granted
  /\ trace (snd (Fullfillment.fulfill_service env0 "cs_1" db0))
     = [OpQuery 42; OpSetAttr 42 "has_access" true; OpCommit].
Proof. vm_compute. repeat split; reflexivity. Qed.

Example replayed_fulfillment :
  Fullfillment.fulfill_service env0 "cs_1" db_granted
  = (Ok true, log (OpQuery 42) db_granted).
Proof. vm_compute. reflexivity. Qed.

Example missing_cart_id :
  Fullfillment.fulfill_service env0 "cs_nokey" db0 = (Ok false, db0).
Proof. vm_compute. reflexivity. Qed.

End ScenarioRuns.

(** Unfold the monad operations of a computation applied to a store. *)
Ltac run_m :=
  unfold mbind, M_bind, mret, M_ret, lift, raise, try_except, try_finally,
    py_int, query_first in *; simpl in *.

Lemma eqb_paid_false (st : string) : st <> "paid" -> String.eqb st "paid" = false.
Proof. intros H. apply String.eqb_neq, H. Qed.

Lemma truthy_str_Some (o : option string) (v : string) :
  o = Some v -> v <> EmptyString -> Py.truthy_str o = Some v.
Proof. intros -> H. destruct v; [congruence | reflexivity]. Qed.

Lemma truthy_str_inv (o : option string) (v : string) :
  Py.truthy_str o = Some v -> o = Some v.
Proof. destruct o as [[|c s]|]; simpl; congruence. Qed.

(** A user can only be found while the database answers. *)
Lemma find_user_Some (db : Db) (uid : Z) (u : Models.User) :
  find_user db uid = Some u ->
  query_fails db = false /\ (pending db ∪ table db) !! uid = Some u.
Proof.
  unfold find_user. destruct (query_fails db); [discriminate | auto].
Qed.

Lemma int_empty : Py.int EmptyString = None.
Proof. reflexivity. Qed.

(** C3: a session whose payment status is not "paid" is not fulfilled: both
    [fulfill_service] variants return [False] without raising, and the
    session and store are left exactly as they were (no user's flag, no
    pending change, not even a query). *)
Theorem unpaid_session_not_fulfilled
    (env : Env) (session_id : string) (s : CheckoutSession) (db : Db) :
  Session_retrieve env session_id = Ok s ->
  payment_status s <> "paid" ->
  Fullfillment.fulfill_service env session_id db = (Ok false, db)
  /\ WebhookHandler.fulfill_service env session_id db = (Ok false, db).
Proof.
  intros Hs Hp. apply eqb_paid_false in Hp.
  unfold Fullfillment.fulfill_service, WebhookHandler.fulfill_service.
  run_m. rewrite Hs. simpl. rewrite Hp. simpl. split; reflexivity.
Qed.

Lemma unpaid_session_not_fulfilled_witness :
  Fullfillment.fulfill_service Scenario.env0 "cs_unpaid" Scenario.db0
    = (Ok false, Scenario.db0)
  /\ WebhookHandler.fulfill_service Scenario.env0 "cs_unpaid" Scenario.db0
    = (Ok false, Scenario.db0).
Proof.
  apply (unpaid_session_not_fulfilled Scenario.env0 "cs_unpaid" Scenario.cs_unpaid).
  - reflexivity.
  - discriminate.
Defined.

(** The background variant of main.py returns nothing and, for an unpaid
    session, does not touch the store either. *)
Lemma unpaid_session_fulfill_order
    (env : Env) (session_id : string) (s : CheckoutSession) (db : Db) :
  Session_retrieve env session_id = Ok s ->
  payment_status s <> "paid" ->
  Main.fulfill_order env session_id db = (Ok tt, db).
Proof.
  intros Hs Hp. apply eqb_paid_false in Hp.
  unfold Main.fulfill_order. rewrite Hs, Hp. reflexivity.
Qed.




(** ** Granting access *)

Lemma find_user_clean (db : Db) (uid : Z) (u : Models.User) :
  pending db = ∅ -> find_user db uid = Some u -> table db !! uid = Some u.
Proof.
  intros H Hf. apply find_user_Some in Hf as [_ Hf].
  rewrite H, (left_id_L ∅ (∪)) in Hf. exact Hf.
Qed.

Lemma find_user_table (db : Db) (uid : Z) :
  pending db = ∅ -> query_fails db = false -> find_user db uid = table db !! uid.
Proof.
  intros H Hq. unfold find_user. rewrite Hq, H, (left_id_L ∅ (∪)). reflexivity.
Qed.

(** Destructure the resolution hypothesis and feed the retrieved session
    through the guards of a fulfillment function. *)
Ltac resolve_session H :=
  let s := fresh "s" in let v := fresh "v" in
  let Hs := fresh "Hs" in let Hp := fresh "Hp" in
  let Hv := fresh "Hv" in let Hi := fresh "Hi" in let Hf := fresh "Hf" in
  let Hq := fresh "Hq" in
  destruct H as (s & v & Hs & Hp & Hv & Hi & Hf);
  assert (v <> EmptyString) by (intros ->; rewrite int_empty in Hi; discriminate Hi);
  pose proof (proj1 (find_user_Some _ _ _ Hf)) as Hq;
  run_m; rewrite Hs; simpl; rewrite Hp; simpl;
  rewrite (truthy_str_Some _ v Hv) by assumption; simpl;
  rewrite Hi; simpl; try (rewrite Hq; simpl); try (rewrite Hf; simpl).

Lemma resolves_to_query_ok
    (env : Env) (db : Db) (session_id : string) (uid : Z) (u : Models.User) :
  resolves_to env db session_id uid u -> query_fails db = false.
Proof.
  intros (_ & _ & _ & _ & _ & _ & Hf). apply (find_user_Some _ _ _ Hf).
Qed.

(** fullfillment.py, first delivery: the flag of the resolved user is set
    and committed, and no other row changes. *)
Lemma fulfill_service_grants
    (env : Env) (session_id : string) (uid : Z) (u : Models.User) (db : Db) :
  resolves_to env db session_id uid u ->
  pending db = ∅ -> commit_fails db = false -> Models.has_access u = false ->
  exists db',
    Fullfillment.fulfill_service env session_id db = (Ok true, db')
    /\ table db' = <[uid := Models.set_has_access true u]> (table db)
    /\ pending db' = ∅ /\ commit_fails db' = false
    /\ trace db'
       = (trace db ++ [OpQuery uid; OpSetAttr uid "has_access" true; OpCommit])%list
    /\ query_fails db' = false.
Proof.
  intros H Hpe Hcf Ha. unfold Fullfillment.fulfill_service.
  pose proof (resolves_to_query_ok _ _ _ _ _ H) as Hqok.
  resolve_session H. rewrite Ha. simpl.
  unfold setattr, commit. simpl.
  assert (Hf' : find_user (log (OpSetAttr uid "has_access" true) (log (OpQuery uid) db)) uid
                = Some u) by exact Hf.
  rewrite Hf'. simpl. rewrite Hcf. simpl.
  eexists. split; [reflexivity|]. simpl. rewrite Hpe.
  repeat split.
  - rewrite insert_empty, <- insert_union_singleton_l. reflexivity.
  - rewrite <- !app_assoc. reflexivity.
  - exact Hqok.
Qed.

(** fullfillment.py, replay: the flag is found set, nothing is written. *)
Lemma fulfill_service_replay
    (env : Env) (session_id : string) (uid : Z) (u : Models.User) (db : Db) :
  resolves_to env db session_id uid u ->
  Models.has_access u = true ->
  Fullfillment.fulfill_service env session_id db = (Ok true, log (OpQuery uid) db).
Proof.
  intros H Ha. unfold Fullfillment.fulfill_service.
  resolve_session H. rewrite Ha. reflexivity.
Qed.

(** fullfillment.py is idempotent on the table: a second delivery of the
    same session leaves the rows as the first one left them, with the
    resolved user's flag set and every other row as it was. *)
Lemma fulfill_service_idempotent
    (env : Env) (session_id : string) (uid : Z) (u : Models.User) (db : Db) :
  resolves_to env db session_id uid u ->
  pending db = ∅ -> commit_fails db = false ->
  let db1 := snd (Fullfillment.fulfill_service env session_id db) in
  let db2 := snd (Fullfillment.fulfill_service env session_id db1) in
  table db2 = table db1
  /\ Models.has_access <$> table db1 !! uid = Some true
  /\ forall uid', uid' <> uid -> table db1 !! uid' = table db !! uid'.
Proof.
  intros H Hpe Hcf db1 db2.
  assert (Hr1 : exists u1, resolves_to env db1 session_id uid u1
                  /\ Models.has_access u1 = true
                  /\ table db1 !! uid = Some u1
                  /\ forall uid', uid' <> uid -> table db1 !! uid' = table db !! uid').
  { destruct (Models.has_access u) eqn:Ha.
    - exists u. subst db1. rewrite (fulfill_service_replay _ _ _ _ _ H Ha). simpl.
      pose proof H as (s & v & Hs & Hp & Hv & Hi & Hf).
      split; [|split; [|split]].
      + exists s, v. auto.
      + exact Ha.
      + exact (find_user_clean _ _ _ Hpe Hf).
      + reflexivity.
    - destruct (fulfill_service_grants _ _ _ _ _ H Hpe Hcf Ha)
        as (db' & E & Ht & Hp' & _ & _ & Hq').
      exists (Models.set_has_access true u). subst db1. rewrite E. simpl.
      destruct H as (s & v & Hs & Hp & Hv & Hi & Hf).
      split; [|split; [|split]].
      + exists s, v. repeat split; auto.
        rewrite find_user_table by assumption. rewrite Ht.
        apply lookup_insert_eq.
      + reflexivity.
      + rewrite Ht. apply lookup_insert_eq.
      + intros uid' Hne. rewrite Ht. apply lookup_insert_ne. congruence. }
  destruct Hr1 as (u1 & Hr & Ha1 & Ht1 & Hother).
  repeat split; auto.
  - subst db2. rewrite (fulfill_service_replay _ _ _ _ _ Hr Ha1). reflexivity.
  - rewrite Ht1. simpl. rewrite Ha1. reflexivity.
Qed.

Example fulfill_service_idempotent_scenario :
  let db1 := snd (Fullfillment.fulfill_service Scenario.env0 "cs_1" Scenario.db0) in
  let db2 := snd (Fullfillment.fulfill_service Scenario.env0 "cs_1" db1) in
  table db2 = table db1 /\ table db1 = table Scenario.db_granted.
Proof. vm_compute. split; reflexivity. Qed.

(** C1: fulfillment of a paid session that resolves to an existing user is
    meant to leave that user's access flag true, once or twice delivered.
    fullfillment.py does ([fulfill_service_idempotent]); webhook-handler.py
    and main.py assign [has_platform_access], which is not a column of
    [users] (models.py maps [has_access]): they report success, the commit
    flushes nothing, and a user whose flag was false still has it false,
    the table being exactly what it was. *)
Theorem platform_access_not_persisted
    (env : Env) (session_id : string) (uid : Z) (u : Models.User) (db : Db) :
  resolves_to env db session_id uid u ->
  pending db = ∅ -> commit_fails db = false -> Models.has_access u = false ->
  (exists db',
      WebhookHandler.fulfill_service env session_id db = (Ok true, db')
      /\ table db' = table db
      /\ Models.has_access <$> table db' !! uid = Some false
      /\ attrs db' !! (uid, "has_platform_access") = Some true)
  /\ (exists db',
      Main.fulfill_order env session_id db = (Ok tt, db')
      /\ table db' = table db
      /\ Models.has_access <$> table db' !! uid = Some false).
Proof.
  intros H Hpe Hcf Ha.
  pose proof (resolves_to_query_ok _ _ _ _ _ H) as Hqok.
  assert (Ht : table db !! uid = Some u).
  { destruct H as (_ & _ & _ & _ & _ & _ & Hf).
    exact (find_user_clean _ _ _ Hpe Hf). }
  split.
  - unfold WebhookHandler.fulfill_service. resolve_session H.
    unfold setattr, commit. simpl. rewrite Hcf. simpl.
    eexists. split; [reflexivity|]. simpl. rewrite Hpe, (left_id_L ∅ (∪)).
    repeat split.
    + rewrite Ht. simpl. rewrite Ha. reflexivity.
    + apply lookup_insert_eq.
  - unfold Main.fulfill_order. resolve_session H.
    unfold SessionLocal, setattr, add, commit, close,
      Main.mark_session_as_fulfilled. run_m.
    assert (Hf' : find_user
              {| table := table db; pending := ∅; attrs := ∅;
                 commit_fails := commit_fails db; query_fails := false;
                 trace := trace db |} uid = Some u)
      by (unfold find_user; simpl; rewrite (left_id_L ∅ (∪)); exact Ht).
    rewrite Hf'. simpl. rewrite Hcf. simpl.
    eexists. split; [reflexivity|]. simpl. rewrite (left_id_L ∅ (∪)).
    repeat split. rewrite Ht. simpl. rewrite Ha. reflexivity.
Qed.

Lemma cs_1_resolves (rows : gmap Z Models.User) (u : Models.User) :
  rows !! 42 = Some u ->
  resolves_to Scenario.env0 (Scenario.db_of rows) "cs_1" 42 u.
Proof.
  intros H. exists Scenario.cs_1, "42". repeat split; try reflexivity.
  unfold find_user, Scenario.db_of. simpl. rewrite (left_id_L ∅ (∪)). exact H.
Qed.

Lemma platform_access_not_persisted_witness :
  (exists db',
      WebhookHandler.fulfill_service Scenario.env0 "cs_1" Scenario.db0 = (Ok true, db')
      /\ table db' = table Scenario.db0
      /\ Models.has_access <$> table db' !! 42 = Some false
      /\ attrs db' !! (42, "has_platform_access") = Some true)
  /\ (exists db',
      Main.fulfill_order Scenario.env0 "cs_1" Scenario.db0 = (Ok tt, db')
      /\ table db' = table Scenario.db0
      /\ Models.has_access <$> table db' !! 42 = Some false).
Proof.
  apply (platform_access_not_persisted Scenario.env0 "cs_1" 42 Scenario.user42).
  - apply (cs_1_resolves _ Scenario.user42). reflexivity.
  - reflexivity.
  - reflexivity.
  - reflexivity.
Defined.

(** More generally, none of the paths that assign [has_platform_access]
    ever changes a row: on a clean session the table after
    webhook-handler.py's [fulfill_service] and invoice handlers, and after
    main.py's [fulfill_order], is the table before. *)
Lemma has_platform_access_inert
    (env : Env) (session_id : string) (invoice : StripeObject) (db : Db) :
  pending db = ∅ ->
  table (snd (WebhookHandler.fulfill_service env session_id db)) = table db
  /\ table (snd (Main.fulfill_order env session_id db)) = table db
  /\ table (snd (WebhookHandler.handle_invoice_payment_succeeded invoice db)) = table db
  /\ table (snd (WebhookHandler.handle_invoice_payment_failed invoice db)) = table db.
Proof.
  intros Hpe. split; [|split; [|split]].
  - unfold WebhookHandler.fulfill_service.
    destruct (Session_retrieve env session_id) as [s|e]; [|reflexivity].
    destruct (negb (String.eqb (payment_status s) "paid")); [reflexivity|].
    destruct (Py.truthy_str (metadata s !! "cartID")) as [v|]; [|reflexivity].
    destruct (Py.int v) as [uid|]; [|reflexivity].
    run_m. destruct (query_fails db); [reflexivity|].
    destruct (find_user db uid); [|reflexivity].
    unfold setattr, commit, rollback. simpl.
    destruct (commit_fails db); simpl; [reflexivity|].
    rewrite Hpe. apply (left_id_L ∅ (∪)).
  - unfold Main.fulfill_order.
    destruct (Session_retrieve env session_id) as [s|e]; [|reflexivity].
    destruct (negb (String.eqb (payment_status s) "paid")); [reflexivity|].
    destruct (Py.truthy_str (metadata s !! "cartID")) as [v|]; [|reflexivity].
    destruct (Py.int v) as [uid|]; [|reflexivity].
    unfold SessionLocal, setattr, add, commit, rollback, close,
      Main.mark_session_as_fulfilled. run_m.
    destruct (query_fails db); simpl; [reflexivity|].
    destruct (find_user _ uid); simpl; [|reflexivity].
    destruct (commit_fails db); simpl; [reflexivity|].
    apply (left_id_L ∅ (∪)).
  - unfold WebhookHandler.handle_invoice_payment_succeeded.
    destruct (WebhookHandler.truthy_id _) as [uid|]; [|reflexivity].
    run_m. destruct (query_fails db); [reflexivity|].
    destruct (find_user db uid); [|reflexivity].
    unfold setattr, commit, rollback. simpl.
    destruct (commit_fails db); simpl; [reflexivity|].
    rewrite Hpe. apply (left_id_L ∅ (∪)).
  - unfold WebhookHandler.handle_invoice_payment_failed.
    destruct (WebhookHandler.truthy_id _) as [uid|]; [|reflexivity].
    run_m. destruct (query_fails db); [reflexivity|].
    destruct (find_user db uid); [|reflexivity].
    unfold setattr, commit, rollback. simpl.
    destruct (commit_fails db); simpl; [reflexivity|].
    rewrite Hpe. apply (left_id_L ∅ (∪)).
Qed.

(** ** Replayed sessions *)

(** C2, as stated, fails on the scenario: replaying [cs_1] for a user who
    already has access, fullfillment.py returns the very value it returns
    for the first delivery (there is no distinct result), and
    webhook-handler.py, which has no flag check, issues an assignment and a
    commit again. *)
Lemma replay_counterexample :
  ~ (fst (Fullfillment.fulfill_service Scenario.env0 "cs_1" Scenario.db_granted)
     <> fst (Fullfillment.fulfill_service Scenario.env0 "cs_1" Scenario.db0))
  /\ ~ Forall (fun op => is_write op = false)
         (trace (snd (WebhookHandler.fulfill_service
                        Scenario.env0 "cs_1" Scenario.db_granted))).
Proof.
  split.
  - intros H. apply H. vm_compute. reflexivity.
  - intros H.
    assert (E : trace (snd (WebhookHandler.fulfill_service
                              Scenario.env0 "cs_1" Scenario.db_granted))
                = [OpQuery 42; OpSetAttr 42 "has_platform_access" true; OpCommit])
      by (vm_compute; reflexivity).
    rewrite E in H. inversion H as [|? ? _ H']; subst.
    inversion H' as [|? ? Hw _]; subst. discriminate Hw.
Qed.

(** C2, amended: for a paid session that resolves to an existing user
    whose flag is already true (the store answering the lookup),
    fullfillment.py returns [True] after one query and nothing else: no
    assignment, no commit; that is the value a first delivery returns too
    (clean session, commit succeeding).  webhook-handler.py has no such
    check: when the commit succeeds it returns [True] after assigning and
    committing again, and the user's flag is still true afterwards. *)
Theorem replay_returns_true
    (env : Env) (session_id : string) (uid : Z) (u : Models.User) (db : Db) :
  resolves_to env db session_id uid u -> Models.has_access u = true ->
  Fullfillment.fulfill_service env session_id db = (Ok true, log (OpQuery uid) db)
  /\ (forall (db0 : Db) (u0 : Models.User),
        resolves_to env db0 session_id uid u0 -> Models.has_access u0 = false ->
        pending db0 = ∅ -> commit_fails db0 = false ->
        fst (Fullfillment.fulfill_service env session_id db0)
        = fst (Fullfillment.fulfill_service env session_id db))
  /\ (commit_fails db = false ->
      exists db',
        WebhookHandler.fulfill_service env session_id db = (Ok true, db')
        /\ trace db'
           = (trace db
                ++ [OpQuery uid; OpSetAttr uid "has_platform_access" true; OpCommit])%list
        /\ Models.has_access <$> find_user db' uid = Some true).
Proof.
  intros H Ha.
  pose proof (fulfill_service_replay _ _ _ _ _ H Ha) as E.
  split; [exact E|]. split.
  - intros db0 u0 H0 Ha0 Hpe0 Hcf0.
    destruct (fulfill_service_grants _ _ _ _ _ H0 Hpe0 Hcf0 Ha0) as (d & E0 & _).
    rewrite E, E0. reflexivity.
  - intros Hcf.
    assert (Hu : find_user db uid = Some u)
      by (destruct H as (_ & _ & _ & _ & _ & _ & Hf); exact Hf).
    destruct (find_user_Some _ _ _ Hu) as [Hqok Hl].
    unfold WebhookHandler.fulfill_service. resolve_session H.
    unfold setattr, commit. simpl. rewrite Hcf. simpl.
    eexists. split; [reflexivity|]. simpl. split.
    + rewrite <- !app_assoc. reflexivity.
    + unfold find_user. simpl. rewrite Hqok, (left_id_L ∅ (∪)), Hl. simpl.
      rewrite Ha. reflexivity.
Qed.

Lemma replay_returns_true_witness :
  Fullfillment.fulfill_service Scenario.env0 "cs_1" Scenario.db_granted
    = (Ok true, log (OpQuery 42) Scenario.db_granted)
  /\ fst (Fullfillment.fulfill_service Scenario.env0 "cs_1" Scenario.db0)
     = fst (Fullfillment.fulfill_service Scenario.env0 "cs_1" Scenario.db_granted)
  /\ exists db',
      WebhookHandler.fulfill_service Scenario.env0 "cs_1" Scenario.db_granted
        = (Ok true, db')
      /\ trace db'
         = (trace Scenario.db_granted
              ++ [OpQuery 42; OpSetAttr 42 "has_platform_access" true; OpCommit])%list
      /\ Models.has_access <$> find_user db' 42 = Some true.
Proof.
  destruct (replay_returns_true Scenario.env0 "cs_1" 42
              (Models.set_has_access true Scenario.user42) Scenario.db_granted)
    as (E & Hfirst & Hweb).
  - apply cs_1_resolves. reflexivity.
  - reflexivity.
  - split; [exact E|]. split.
    + apply (Hfirst Scenario.db0 Scenario.user42).
      * apply cs_1_resolves. reflexivity.
      * reflexivity.
      * reflexivity.
      * reflexivity.
    + apply Hweb. reflexivity.
Defined.

(** ** Failed renewals *)

(** C5: a failed renewal that resolves to an existing user with access is
    meant to leave that user's flag false.  webhook-handler.py resolves
    the user and attempts the revocation at once, but assigns [False] to
    [has_platform_access], which [users] does not map (models.py maps
    [has_access]): whether its commit goes through or not, the table is
    what it was and the user's flag is still true.  main.py's handler only
    logs and leaves the store alone. *)
Theorem failed_payment_not_revoked
    (invoice : StripeObject) (uid : Z) (u : Models.User) (db : Db) :
  WebhookHandler.extract_user_id_from_invoice invoice = Some uid ->
  uid <> 0 ->
  find_user db uid = Some u ->
  Models.has_access u = true ->
  pending db = ∅ ->
  (exists db' rest,
      WebhookHandler.handle_invoice_payment_failed invoice db = (Ok tt, db')
      /\ trace db'
         = (trace db ++ OpQuery uid :: OpSetAttr uid "has_platform_access" false
                        :: OpCommit :: rest)%list
      /\ table db' = table db
      /\ Models.has_access <$> table db' !! uid = Some true)
  /\ Main.handle_failed_payment invoice db = (Ok tt, db).
Proof.
  intros He Hz Hf Ha Hpe. split; [|reflexivity].
  destruct (find_user_Some _ _ _ Hf) as [Hqok _].
  pose proof (find_user_clean _ _ _ Hpe Hf) as Ht.
  unfold WebhookHandler.handle_invoice_payment_failed. rewrite He.
  assert (Hid : WebhookHandler.truthy_id (Some uid) = Some uid)
    by (destruct uid; [congruence | reflexivity ..]).
  rewrite Hid. run_m. rewrite Hqok. simpl. rewrite Hf. simpl.
  unfold setattr, commit, rollback. simpl.
  destruct (commit_fails db); simpl.
  - eexists _, [OpRollback]. split; [reflexivity|]. simpl. split; [|split].
    + rewrite <- !app_assoc. reflexivity.
    + reflexivity.
    + rewrite Ht. simpl. rewrite Ha. reflexivity.
  - eexists _, []. split; [reflexivity|]. simpl. split; [|split].
    + rewrite <- !app_assoc. reflexivity.
    + rewrite Hpe. apply (left_id_L ∅ (∪)).
    + rewrite Hpe, (left_id_L ∅ (∪)), Ht. simpl. rewrite Ha. reflexivity.
Qed.

Lemma failed_payment_not_revoked_witness :
  (exists db' rest,
      WebhookHandler.handle_invoice_payment_failed Scenario.in_1 Scenario.db_granted
        = (Ok tt, db')
      /\ trace db'
         = (trace Scenario.db_granted
              ++ OpQuery 42 :: OpSetAttr 42 "has_platform_access" false
                 :: OpCommit :: rest)%list
      /\ table db' = table Scenario.db_granted
      /\ Models.has_access <$> table db' !! 42 = Some true)
  /\ Main.handle_failed_payment Scenario.in_1 Scenario.db_granted
     = (Ok tt, Scenario.db_granted).
Proof.
  apply (failed_payment_not_revoked Scenario.in_1 42
           (Models.set_has_access true Scenario.user42) Scenario.db_granted).
  - reflexivity.
  - discriminate.
  - reflexivity.
  - reflexivity.
  - reflexivity.
Defined.

(** ** Event verification *)

(** main.py rejects both verifier failures with a 400, queues no task and
    so leaves the store alone; webhook-handler.py rejects a bad signature
    with a 400 without touching the store. *)
Lemma verification_failure_rejected (env : Env) (request : Request) (db : Db) :
  let sig := headers request !! "stripe-signature" in
  (forall msg,
      Webhook_construct_event env (body request) sig (Main.endpoint_secret env)
        = Raise (ValueError msg) ->
      Main.serve env request db
        = ({| status := 400; content := Json [("detail", "Invalid payload")] |}, db))
  /\ (Webhook_construct_event env (body request) sig (Main.endpoint_secret env)
        = Raise SignatureVerificationError ->
      Main.serve env request db
        = ({| status := 400; content := Json [("detail", "Invalid signature")] |}, db))
  /\ (Webhook_construct_event env (body request) sig
          (Some (WebhookHandler.STRIPE_WEBHOOK_SECRET env))
        = Raise SignatureVerificationError ->
      WebhookHandler.stripe_webhook env request db
        = (Raise (HTTPException 400 "Invalid webhook signature"), db)).
Proof.
  simpl. unfold Main.serve, Main.stripe_webhook, WebhookHandler.stripe_webhook.
  split; [|split].
  - intros msg H. rewrite H. reflexivity.
  - intros H. rewrite H. reflexivity.
  - intros H. rewrite H. reflexivity.
Qed.

(** Whatever the verifier raises, neither endpoint processes the event:
    main.py queues no task, webhook-handler.py leaves session and store as
    they were, and neither returns normally. *)
Lemma unverified_event_not_processed
    (env : Env) (request : Request) (db : Db) (e : Exn) :
  let sig := headers request !! "stripe-signature" in
  (Webhook_construct_event env (body request) sig (Main.endpoint_secret env) = Raise e ->
   snd (Main.stripe_webhook env request) = []
   /\ snd (Main.serve env request db) = db
   /\ exists e', fst (Main.stripe_webhook env request) = Raise e')
  /\ (Webhook_construct_event env (body request) sig
          (Some (WebhookHandler.STRIPE_WEBHOOK_SECRET env)) = Raise e ->
      snd (WebhookHandler.stripe_webhook env request db) = db
      /\ exists e', fst (WebhookHandler.stripe_webhook env request db) = Raise e').
Proof.
  simpl. unfold Main.serve, Main.stripe_webhook, WebhookHandler.stripe_webhook.
  split; intros H; rewrite H; destruct e; simpl; eauto.
Qed.

(** C4: the endpoint is meant to answer a body that does not parse with a
    400.  webhook-handler.py catches only [SignatureVerificationError]
    around [construct_event] (main.py catches both): the verifier's
    [ValueError] escapes the endpoint and the framework answers 500.  The
    store is not accessed and no handler runs. *)
Theorem invalid_payload_escapes
    (env : Env) (request : Request) (db : Db) (msg : string) :
  Webhook_construct_event env (body request)
      (headers request !! "stripe-signature")
      (Some (WebhookHandler.STRIPE_WEBHOOK_SECRET env))
    = Raise (ValueError msg) ->
  WebhookHandler.stripe_webhook env request db = (Raise (ValueError msg), db)
  /\ http_response (fst (WebhookHandler.stripe_webhook env request db))
     = {| status := 500; content := Text "Internal Server Error" |}.
Proof.
  intros H. unfold WebhookHandler.stripe_webhook. rewrite H. split; reflexivity.
Qed.

Lemma invalid_payload_escapes_witness :
  WebhookHandler.stripe_webhook Scenario.env0 (Scenario.mk_request "garbled") Scenario.db0
    = (Raise (ValueError "Expecting value: line 1 column 1 (char 0)"), Scenario.db0)
  /\ http_response (fst (WebhookHandler.stripe_webhook Scenario.env0
                           (Scenario.mk_request "garbled") Scenario.db0))
     = {| status := 500; content := Text "Internal Server Error" |}.
Proof.
  apply (invalid_payload_escapes Scenario.env0 (Scenario.mk_request "garbled")).
  reflexivity.
Defined.

(** ** Dispatch *)







(** ** The correlation key *)

Lemma resolves_to_cart_user_id
    (env : Env) (db : Db) (session_id : string) (uid : Z) (u : Models.User) :
  resolves_to env db session_id uid u <->
  exists s, Session_retrieve env session_id = Ok s /\ payment_status s = "paid"
            /\ cart_user_id (metadata s) = Some uid /\ find_user db uid = Some u.
Proof.
  unfold cart_user_id. split.
  - intros (s & v & Hs & Hp & Hv & Hi & Hf). exists s. repeat split; auto.
    rewrite (truthy_str_Some _ v Hv); [exact Hi|]. intros ->. discriminate Hi.
  - intros (s & Hs & Hp & Hc & Hf).
    destruct (Py.truthy_str (metadata s !! "cartID")) as [v|] eqn:E;
      [|discriminate Hc].
    exists s, v. repeat split; auto. apply truthy_str_inv, E.
Qed.

Lemma payment_link_accepted
    (env : Env) (request : PaymentLink.PaymentLinkRequest) (db db' : Db) (b : Body) :
  PaymentLink.create_payment_link env request db = (Ok b, db') ->
  exists u price url,
    find_user db (PaymentLink.user_id request) = Some u
    /\ PaymentLink.PRICE_IDS !! PaymentLink.plan request = Some price
    /\ PaymentLink_create env (PaymentLink.payment_link_params request price) = Ok url
    /\ b = Json [("payment_link_url", url)]
    /\ db' = log (OpQuery (PaymentLink.user_id request)) db.
Proof.
  unfold PaymentLink.create_payment_link. run_m.
  destruct (query_fails db) eqn:Hq; [discriminate|].
  destruct (find_user db (PaymentLink.user_id request)) as [u|] eqn:Hf;
    [|discriminate].
  destruct (PaymentLink.PRICE_IDS !! PaymentLink.plan request) as [price|];
    [|discriminate].
  destruct (PaymentLink_create env _) as [url|e] eqn:E; [|discriminate].
  intros [= <- <-]. exists u, price, url. auto.
Qed.

(** With a paid session whose key reads as [uid], the first thing each
    resolver does with the store is to look up user [uid]. *)
Lemma resolvers_query_cart_user
    (env : Env) (session_id : string) (s : CheckoutSession) (uid : Z) (db : Db) :
  Session_retrieve env session_id = Ok s ->
  payment_status s = "paid" ->
  cart_user_id (metadata s) = Some uid ->
  (exists r db2 rest,
      Fullfillment.fulfill_service env session_id db = (r, db2)
      /\ trace db2 = (trace db ++ OpQuery uid :: rest)%list)
  /\ (exists r db2 rest,
      WebhookHandler.fulfill_service env session_id db = (r, db2)
      /\ trace db2 = (trace db ++ OpQuery uid :: rest)%list)
  /\ (exists r db2 rest,
      Main.fulfill_order env session_id db = (r, db2)
      /\ trace db2 = (trace db ++ OpQuery uid :: rest)%list).
Proof.
  intros Hs Hp Hc. unfold cart_user_id in Hc.
  destruct (Py.truthy_str (metadata s !! "cartID")) as [v|] eqn:Ev;
    [simpl in Hc | discriminate Hc].
  split; [|split].
  - unfold Fullfillment.fulfill_service. run_m.
    rewrite Hs. simpl. rewrite Hp. simpl. rewrite Ev, Hc. simpl.
    destruct (query_fails db); simpl.
    { do 3 eexists. split; [reflexivity|]. reflexivity. }
    destruct (find_user db uid) as [u|]; simpl.
    + destruct (Models.has_access u); simpl.
      * do 3 eexists. split; [reflexivity|]. reflexivity.
      * unfold setattr, commit. simpl.
        destruct (find_user _ uid); simpl; destruct (commit_fails db); simpl;
          do 3 eexists; (split; [reflexivity|]); simpl;
          rewrite <- !app_assoc; reflexivity.
    + do 3 eexists. split; [reflexivity|]. reflexivity.
  - unfold WebhookHandler.fulfill_service. run_m.
    rewrite Hs. simpl. rewrite Hp. simpl. rewrite Ev, Hc. simpl.
    destruct (query_fails db); simpl.
    { do 3 eexists. split; [reflexivity|]. reflexivity. }
    destruct (find_user db uid) as [u|]; simpl.
    + unfold setattr, commit, rollback. simpl.
      destruct (commit_fails db); simpl;
        do 3 eexists; (split; [reflexivity|]); simpl;
        rewrite <- !app_assoc; reflexivity.
    + do 3 eexists. split; [reflexivity|]. reflexivity.
  - unfold Main.fulfill_order. run_m.
    rewrite Hs. simpl. rewrite Hp. simpl. rewrite Ev, Hc. simpl.
    unfold SessionLocal, setattr, add, commit, rollback, close,
      Main.mark_session_as_fulfilled. run_m.
    destruct (query_fails db); simpl.
    { do 3 eexists. split; [reflexivity|]. simpl.
      rewrite <- !app_assoc. reflexivity. }
    destruct (find_user _ uid) as [u|]; simpl.
    + destruct (commit_fails db); simpl;
        do 3 eexists; (split; [reflexivity|]); simpl;
        rewrite <- !app_assoc; reflexivity.
    + do 3 eexists. split; [reflexivity|]. simpl.
      rewrite <- !app_assoc. reflexivity.
Qed.

(** C8: when the issuer accepts a request, the metadata it hands to the
    provider is exactly [{"cartID": str(user_id)}]; reading "cartID" from
    that metadata and parsing it as the resolver does gives [user_id] back;
    so a paid session carrying this metadata resolves to the very user the
    issuer validated. *)
Theorem cart_id_round_trip
    (env : Env) (request : PaymentLink.PaymentLinkRequest) (db db' : Db) (b : Body)
    (session_id : string) (s : CheckoutSession) (price0 : string) :
  PaymentLink.create_payment_link env request db = (Ok b, db') ->
  Session_retrieve env session_id = Ok s ->
  payment_status s = "paid" ->
  metadata s = link_metadata (PaymentLink.payment_link_params request price0) ->
  let uid := PaymentLink.user_id request in
  (exists price url,
      PaymentLink_create env (PaymentLink.payment_link_params request price) = Ok url
      /\ link_metadata (PaymentLink.payment_link_params request price)
         = {[ "cartID" := Py.str uid ]})
  /\ metadata s !! "cartID" = Some (Py.str uid)
  /\ Py.int (Py.str uid) = Some uid
  /\ cart_user_id (metadata s) = Some uid
  /\ (exists u, resolves_to env db session_id uid u)
  /\ (exists r db2 rest,
        Fullfillment.fulfill_service env session_id db' = (r, db2)
        /\ trace db2 = (trace db' ++ OpQuery uid :: rest)%list)
  /\ (exists r db2 rest,
        WebhookHandler.fulfill_service env session_id db' = (r, db2)
        /\ trace db2 = (trace db' ++ OpQuery uid :: rest)%list)
  /\ (exists r db2 rest,
        Main.fulfill_order env session_id db' = (r, db2)
        /\ trace db2 = (trace db' ++ OpQuery uid :: rest)%list).
Proof.
  intros Hc Hs Hp Hm uid.
  destruct (payment_link_accepted _ _ _ _ _ Hc) as (u & price & url & Hf & _ & Hl & _).
  assert (Hk : metadata s !! "cartID" = Some (Py.str uid))
    by (rewrite Hm; apply lookup_singleton_eq).
  assert (Ht : Py.truthy_str (metadata s !! "cartID") = Some (Py.str uid))
    by (apply truthy_str_Some; [exact Hk | apply PyFacts.str_nonempty]).
  assert (Hcu : cart_user_id (metadata s) = Some uid)
    by (unfold cart_user_id; rewrite Ht; apply PyFacts.int_str).
  split; [|split; [|split; [|split; [|split]]]].
  - exists price, url. split; [exact Hl | reflexivity].
  - exact Hk.
  - apply PyFacts.int_str.
  - exact Hcu.
  - exists u, s, (Py.str uid). repeat split; auto. apply PyFacts.int_str.
  - exact (resolvers_query_cart_user env session_id s uid db' Hs Hp Hcu).
Qed.

Lemma cart_id_round_trip_witness :
  let request := {| PaymentLink.user_id := 42; PaymentLink.plan := "gold" |} in
  (exists price url,
      PaymentLink_create Scenario.env0 (PaymentLink.payment_link_params request price)
        = Ok url
      /\ link_metadata (PaymentLink.payment_link_params request price)
         = {[ "cartID" := Py.str 42 ]})
  /\ metadata Scenario.cs_1 !! "cartID" = Some (Py.str 42)
  /\ Py.int (Py.str 42) = Some 42
  /\ cart_user_id (metadata Scenario.cs_1) = Some 42
  /\ (exists u, resolves_to Scenario.env0 Scenario.db0 "cs_1" 42 u)
  /\ (exists r db2 rest,
        Fullfillment.fulfill_service Scenario.env0 "cs_1" (log (OpQuery 42) Scenario.db0)
          = (r, db2)
        /\ trace db2 = (trace (log (OpQuery 42) Scenario.db0) ++ OpQuery 42 :: rest)%list)
  /\ (exists r db2 rest,
        WebhookHandler.fulfill_service Scenario.env0 "cs_1" (log (OpQuery 42) Scenario.db0)
          = (r, db2)
        /\ trace db2 = (trace (log (OpQuery 42) Scenario.db0) ++ OpQuery 42 :: rest)%list)
  /\ (exists r db2 rest,
        Main.fulfill_order Scenario.env0 "cs_1" (log (OpQuery 42) Scenario.db0)
          = (r, db2)
        /\ trace db2 = (trace (log (OpQuery 42) Scenario.db0) ++ OpQuery 42 :: rest)%list).
Proof.
  apply (cart_id_round_trip Scenario.env0
           {| PaymentLink.user_id := 42; PaymentLink.plan := "gold" |}
           Scenario.db0 (log (OpQuery 42) Scenario.db0)
           (Json [("payment_link_url", "https://buy.stripe.com/test_1")])
           "cs_1" Scenario.cs_1 "price_1QhzfAIZhbjcBaqMGoldXXX").
  - vm_compute. reflexivity.
  - reflexivity.
  - reflexivity.
  - vm_compute. reflexivity.
Defined.

(** ** Rejected payment-link requests *)

Lemma PRICE_IDS_unknown (plan : string) :
  plan <> "bronze" -> plan <> "silver" -> plan <> "gold" ->
  PaymentLink.PRICE_IDS !! plan = None.
Proof.
  intros Hb Hs Hg. unfold PaymentLink.PRICE_IDS.
  rewrite !lookup_insert_ne by congruence. apply lookup_empty.
Qed.

(** C9, as stated, fails on the scenario: the user lookup of
    [create_payment_link] is outside its [try], so while the store does
    not answer it the exception leaves the endpoint and the answer is a
    500: neither the 400 for user 42 asking for "platinum", nor the 404
    for the unknown user 99. *)
Lemma payment_link_counterexample :
  let platinum := {| PaymentLink.user_id := 42; PaymentLink.plan := "platinum" |} in
  let unknown := {| PaymentLink.user_id := 99; PaymentLink.plan := "gold" |} in
  is_Some (table Outage.db_deaf !! 42)
  /\ table Outage.db_deaf !! 99 = None
  /\ ~ (status (http_response
                  (fst (PaymentLink.create_payment_link Scenario.env0 platinum
                          Outage.db_deaf)))
        = 400)
  /\ ~ (status (http_response
                  (fst (PaymentLink.create_payment_link Scenario.env0 unknown
                          Outage.db_deaf)))
        = 404)
  /\ http_response
       (fst (PaymentLink.create_payment_link Scenario.env0 unknown Outage.db_deaf))
     = internal_error_response.
Proof.
  repeat split; try (vm_compute; reflexivity); try (vm_compute; discriminate).
  vm_compute. eauto.
Qed.

(** C9, amended: when the store answers the user lookup, a request that
    names an existing user and a plan other than bronze, silver and gold
    raises [HTTPException(400, "Invalid subscription plan")], and a
    request that names no user of the store raises [HTTPException(404,
    "User not found")], whatever its plan; in both cases the session has
    only seen the user query, no row has changed, and the provider is not
    called. *)
Theorem payment_link_rejections (env : Env) (db : Db) :
  (forall (request : PaymentLink.PaymentLinkRequest) (u : Models.User),
      find_user db (PaymentLink.user_id request) = Some u ->
      PaymentLink.plan request <> "bronze" ->
      PaymentLink.plan request <> "silver" ->
      PaymentLink.plan request <> "gold" ->
      PaymentLink.create_payment_link env request db
        = (Raise (HTTPException 400 "Invalid subscription plan"),
           log (OpQuery (PaymentLink.user_id request)) db)
      /\ http_response (fst (PaymentLink.create_payment_link env request db))
         = {| status := 400; content := Json [("detail", "Invalid subscription plan")] |}
      /\ table (snd (PaymentLink.create_payment_link env request db)) = table db
      /\ pending (snd (PaymentLink.create_payment_link env request db)) = pending db)
  /\ (forall request : PaymentLink.PaymentLinkRequest,
        query_fails db = false ->
        find_user db (PaymentLink.user_id request) = None ->
        PaymentLink.create_payment_link env request db
          = (Raise (HTTPException 404 "User not found"),
             log (OpQuery (PaymentLink.user_id request)) db)
        /\ http_response (fst (PaymentLink.create_payment_link env request db))
           = {| status := 404; content := Json [("detail", "User not found")] |}
        /\ table (snd (PaymentLink.create_payment_link env request db)) = table db
        /\ pending (snd (PaymentLink.create_payment_link env request db)) = pending db).
Proof.
  split.
  - intros request u Hu Hb Hs Hg.
    destruct (find_user_Some _ _ _ Hu) as [Hq _].
    assert (E : PaymentLink.create_payment_link env request db
                = (Raise (HTTPException 400 "Invalid subscription plan"),
                   log (OpQuery (PaymentLink.user_id request)) db)).
    { unfold PaymentLink.create_payment_link. run_m.
      rewrite Hq, Hu, (PRICE_IDS_unknown _ Hb Hs Hg). reflexivity. }
    rewrite E. repeat split; reflexivity.
  - intros request Hq Hn.
    assert (E : PaymentLink.create_payment_link env request db
                = (Raise (HTTPException 404 "User not found"),
                   log (OpQuery (PaymentLink.user_id request)) db)).
    { unfold PaymentLink.create_payment_link. run_m. rewrite Hq, Hn. reflexivity. }
    rewrite E. repeat split; reflexivity.
Qed.

Lemma payment_link_rejections_witness :
  let request := {| PaymentLink.user_id := 42; PaymentLink.plan := "platinum" |} in
  let request' := {| PaymentLink.user_id := 99; PaymentLink.plan := "gold" |} in
  (PaymentLink.create_payment_link Scenario.env0 request Scenario.db0
     = (Raise (HTTPException 400 "Invalid subscription plan"),
        log (OpQuery 42) Scenario.db0)
   /\ http_response (fst (PaymentLink.create_payment_link Scenario.env0 request Scenario.db0))
      = {| status := 400; content := Json [("detail", "Invalid subscription plan")] |})
  /\ (PaymentLink.create_payment_link Scenario.env0 request' (Scenario.db_of ∅)
        = (Raise (HTTPException 404 "User not found"),
           log (OpQuery 99) (Scenario.db_of ∅))
      /\ http_response (fst (PaymentLink.create_payment_link Scenario.env0 request'
                               (Scenario.db_of ∅)))
         = {| status := 404; content := Json [("detail", "User not found")] |}).
Proof.
  split.
  - destruct (payment_link_rejections Scenario.env0 Scenario.db0) as [H400 _].
    destruct (H400 {| PaymentLink.user_id := 42; PaymentLink.plan := "platinum" |}
                Scenario.user42) as (E & R & _).
    + reflexivity.
    + discriminate.
    + discriminate.
    + discriminate.
    + split; [exact E | exact R].
  - destruct (payment_link_rejections Scenario.env0 (Scenario.db_of ∅)) as [_ H404].
    destruct (H404 {| PaymentLink.user_id := 99; PaymentLink.plan := "gold" |})
      as (E & R & _).
    + reflexivity.
    + reflexivity.
    + split; [exact E | exact R].
Defined.

(** ** Invoices without a user identifier *)

(** The resolution of an invoice depends on its "user_id" entry alone. *)
Lemma extract_user_id_only_reads_user_id (i1 i2 : StripeObject) :
  obj_metadata i1 !! "user_id" = obj_metadata i2 !! "user_id" ->
  WebhookHandler.extract_user_id_from_invoice i1
  = WebhookHandler.extract_user_id_from_invoice i2.
Proof.
  intros H. unfold WebhookHandler.extract_user_id_from_invoice. rewrite H.
  destruct (Py.truthy_str (obj_metadata i2 !! "user_id")); [reflexivity|].
  destruct (obj_subscription i1), (obj_subscription i2); reflexivity.
Qed.

(** C10: when the invoice metadata has no "user_id" entry that parses as
    an integer, [extract_user_id_from_invoice] yields [None] whatever the
    subscription, and whatever is stored under "cartID" (the key the
    issuer plants); the succeeded and failed handlers of webhook-handler.py
    and of main.py then return leaving session and store exactly as they
    were. *)
Theorem invoice_without_user_id
    (invoice : StripeObject) (db : Db) :
  (forall v, obj_metadata invoice !! "user_id" = Some v -> Py.int v = None) ->
  WebhookHandler.extract_user_id_from_invoice invoice = None
  /\ (forall v, WebhookHandler.extract_user_id_from_invoice (with_cart_id v invoice) = None)
  /\ (forall (request : PaymentLink.PaymentLinkRequest) (price sid : string) sub,
        WebhookHandler.extract_user_id_from_invoice
          {| obj_id := sid; obj_subscription := sub;
             obj_metadata :=
               link_metadata (PaymentLink.payment_link_params request price) |}
        = None)
  /\ WebhookHandler.handle_invoice_payment_succeeded invoice db = (Ok tt, db)
  /\ WebhookHandler.handle_invoice_payment_failed invoice db = (Ok tt, db)
  /\ Main.handle_subscription_renewal invoice db = (Ok tt, db)
  /\ Main.handle_failed_payment invoice db = (Ok tt, db).
Proof.
  intros H.
  assert (E : WebhookHandler.extract_user_id_from_invoice invoice = None).
  { unfold WebhookHandler.extract_user_id_from_invoice.
    destruct (Py.truthy_str (obj_metadata invoice !! "user_id")) as [v|] eqn:Ev.
    - apply H, truthy_str_inv, Ev.
    - destruct (obj_subscription invoice); reflexivity. }
  split; [exact E|]. split; [|split; [|split; [|split; [|split]]]].
  - intros v. rewrite <- E. apply extract_user_id_only_reads_user_id.
    simpl. apply lookup_insert_ne. discriminate.
  - intros request price sid sub.
    unfold WebhookHandler.extract_user_id_from_invoice. simpl.
    rewrite lookup_singleton_ne by discriminate. simpl.
    destruct sub; reflexivity.
  - unfold WebhookHandler.handle_invoice_payment_succeeded. rewrite E. reflexivity.
  - unfold WebhookHandler.handle_invoice_payment_failed. rewrite E. reflexivity.
  - reflexivity.
  - reflexivity.
Qed.

Lemma invoice_without_user_id_witness :
  WebhookHandler.extract_user_id_from_invoice Scenario.in_cart = None
  /\ (forall v, WebhookHandler.extract_user_id_from_invoice
                  (with_cart_id v Scenario.in_cart) = None)
  /\ (forall (request : PaymentLink.PaymentLinkRequest) (price sid : string) sub,
        WebhookHandler.extract_user_id_from_invoice
          {| obj_id := sid; obj_subscription := sub;
             obj_metadata :=
               link_metadata (PaymentLink.payment_link_params request price) |}
        = None)
  /\ WebhookHandler.handle_invoice_payment_succeeded Scenario.in_cart Scenario.db0
     = (Ok tt, Scenario.db0)
  /\ WebhookHandler.handle_invoice_payment_failed Scenario.in_cart Scenario.db0
     = (Ok tt, Scenario.db0)
  /\ Main.handle_subscription_renewal Scenario.in_cart Scenario.db0 = (Ok tt, Scenario.db0)
  /\ Main.handle_failed_payment Scenario.in_cart Scenario.db0 = (Ok tt, Scenario.db0).
Proof.
  apply (invoice_without_user_id Scenario.in_cart Scenario.db0).
  intros v Hv. vm_compute in Hv. discriminate Hv.
Defined.

(* ===================================================================== *)
(** * Further properties of the sources                                   *)
(* ===================================================================== *)

(** ** When fulfillment reports success *)

(** X1 (fullfillment.py): [fulfill_service] never raises, and it returns
    [True] exactly when the session is retrieved, paid, and its "cartID"
    parses to an existing user whose flag is already set or whose update
    commits. *)
Theorem fullfillment_true_iff (env : Env) (session_id : string) (db : Db) :
  (exists b db', Fullfillment.fulfill_service env session_id db = (Ok b, db'))
  /\ (fst (Fullfillment.fulfill_service env session_id db) = Ok true
      <-> exists uid u,
            resolves_to env db session_id uid u
            /\ (Models.has_access u = true \/ commit_fails db = false)).
Proof.
  split; [|split].
  - unfold Fullfillment.fulfill_service. run_m.
    destruct (Session_retrieve env session_id) as [s|e]; simpl; [|eauto].
    destruct (String.eqb (payment_status s) "paid"); simpl; [|eauto].
    destruct (Py.truthy_str (metadata s !! "cartID")) as [v|]; simpl; [|eauto].
    destruct (Py.int v) as [uid|]; simpl; [|eauto].
    destruct (query_fails db) eqn:Hq; simpl; [eauto|].
    destruct (find_user db uid) as [u|] eqn:Hf; simpl; [|eauto].
    destruct (Models.has_access u); simpl; [eauto|].
    unfold setattr, commit. simpl.
    assert (Hf' : find_user (log (OpSetAttr uid "has_access" true)
                               (log (OpQuery uid) db)) uid = Some u) by exact Hf.
    rewrite Hf'. simpl. destruct (commit_fails db); simpl; eauto.
  - unfold Fullfillment.fulfill_service. run_m.
    destruct (Session_retrieve env session_id) as [s|e] eqn:Hs; simpl;
      [|discriminate].
    destruct (String.eqb (payment_status s) "paid") eqn:Hp; simpl; [|discriminate].
    destruct (Py.truthy_str (metadata s !! "cartID")) as [v|] eqn:Hv; simpl;
      [|discriminate].
    destruct (Py.int v) as [uid|] eqn:Hi; simpl; [|discriminate].
    destruct (query_fails db) eqn:Hq; simpl; [discriminate|].
    destruct (find_user db uid) as [u|] eqn:Hf; simpl; [|discriminate].
    assert (Hr : resolves_to env db session_id uid u).
    { exists s, v. repeat split; auto.
      - apply String.eqb_eq, Hp.
      - apply truthy_str_inv, Hv. }
    destruct (Models.has_access u) eqn:Ha; simpl.
    + intros _. exists uid, u. auto.
    + unfold setattr, commit. simpl.
      assert (Hf' : find_user (log (OpSetAttr uid "has_access" true)
                                 (log (OpQuery uid) db)) uid = Some u) by exact Hf.
      rewrite Hf'. simpl. destruct (commit_fails db) eqn:Hcf; simpl;
        [discriminate|].
      intros _. exists uid, u. auto.
  - intros (uid & u & Hr & Hok).
    destruct (Models.has_access u) eqn:Ha.
    + rewrite (fulfill_service_replay _ _ _ _ _ Hr Ha). reflexivity.
    + destruct Hok as [Hok | Hcf]; [discriminate Hok|].
      unfold Fullfillment.fulfill_service. resolve_session Hr.
      rewrite Ha. simpl. unfold setattr, commit. simpl.
      assert (Hf' : find_user (log (OpSetAttr uid "has_access" true)
                                 (log (OpQuery uid) db)) uid = Some u) by assumption.
      rewrite Hf'. simpl. rewrite Hcf. reflexivity.
Qed.

(** X2 (webhook-handler.py): [fulfill_service] returns [True] exactly when
    the session is retrieved, paid, its "cartID" parses to an existing
    user, and the commit goes through; it raises -- the lookup sits
    outside every [try] -- exactly when the session is retrieved, paid,
    its "cartID" parses, and the store does not answer the lookup; in
    every other case it returns [False]. *)
Theorem webhook_fulfill_outcomes (env : Env) (session_id : string) (db : Db) :
  (fst (WebhookHandler.fulfill_service env session_id db) = Ok true
   <-> exists uid u,
         resolves_to env db session_id uid u /\ commit_fails db = false)
  /\ ((exists e, fst (WebhookHandler.fulfill_service env session_id db) = Raise e)
      <-> exists s uid,
            Session_retrieve env session_id = Ok s /\ payment_status s = "paid"
            /\ cart_user_id (metadata s) = Some uid /\ query_fails db = true)
  /\ (fst (WebhookHandler.fulfill_service env session_id db) = Ok true
      \/ fst (WebhookHandler.fulfill_service env session_id db) = Ok false
      \/ fst (WebhookHandler.fulfill_service env session_id db)
         = Raise (SQLAlchemyError "query failed")).
Proof.
  unfold cart_user_id, WebhookHandler.fulfill_service.
  destruct (Session_retrieve env session_id) as [s|e] eqn:Hs.
  2: { split; [|split]; [split | split | auto].
       - discriminate.
       - intros (uid & u & (s & v & Hs' & _) & _). congruence.
       - intros [e' H]. discriminate H.
       - intros (s & uid & Hs' & _). congruence. }
  destruct (String.eqb (payment_status s) "paid") eqn:Hp; simpl.
  2: { apply String.eqb_neq in Hp.
       split; [|split]; [split | split | auto].
       - discriminate.
       - intros (uid & u & (s' & v & Hs' & Hp' & _) & _).
         try rewrite Hs in Hs'; injection Hs' as <-. contradiction.
       - intros [e' H]. discriminate H.
       - intros (s' & uid & Hs' & Hp' & _).
         try rewrite Hs in Hs'; injection Hs' as <-. contradiction. }
  apply String.eqb_eq in Hp.
  destruct (Py.truthy_str (metadata s !! "cartID")) as [v|] eqn:Hv.
  2: { split; [|split]; [split | split | auto].
       - discriminate.
       - intros (uid & u & (s' & v & Hs' & _ & Hv' & Hi' & _) & _).
         try rewrite Hs in Hs'; injection Hs' as <-. rewrite Hv' in Hv.
         destruct v; [rewrite int_empty in Hi'|]; discriminate.
       - intros [e' H]. discriminate H.
       - intros (s' & uid & Hs' & _ & Hc & _). try rewrite Hs in Hs'; injection Hs' as <-.
         rewrite Hv in Hc. discriminate Hc. }
  pose proof (truthy_str_inv _ _ Hv) as Hv0.
  destruct (Py.int v) as [uid|] eqn:Hi.
  2: { split; [|split]; [split | split | auto].
       - discriminate.
       - intros (uid & u & (s' & v' & Hs' & _ & Hv' & Hi' & _) & _).
         try rewrite Hs in Hs'; injection Hs' as <-. rewrite Hv0 in Hv'.
         injection Hv' as <-. congruence.
       - intros [e' H]. discriminate H.
       - intros (s' & uid & Hs' & _ & Hc & _). try rewrite Hs in Hs'; injection Hs' as <-.
         rewrite Hv in Hc. simpl in Hc. congruence. }
  assert (Hkey : forall s' v' uid',
             Session_retrieve env session_id = Ok s' ->
             metadata s' !! "cartID" = Some v' -> Py.int v' = Some uid' ->
             uid' = uid).
  { intros s' v' uid' Hs' Hv' Hi'. try rewrite Hs in Hs'; injection Hs' as <-.
    rewrite Hv0 in Hv'. injection Hv' as <-. congruence. }
  run_m. destruct (query_fails db) eqn:Hq; simpl.
  { split; [|split]; [split | split | auto].
    - discriminate.
    - intros (uid' & u & Hr & _).
      pose proof (resolves_to_query_ok _ _ _ _ _ Hr). congruence.
    - intros _. exists s, uid. rewrite Hv. auto.
    - intros _. eauto. }
  destruct (find_user db uid) as [u|] eqn:Hf; simpl.
  2: { split; [|split]; [split | split | auto].
       - discriminate.
       - intros (uid' & u & (s' & v' & Hs' & _ & Hv' & Hi' & Hf') & _).
         rewrite (Hkey _ _ _ Hs' Hv' Hi') in Hf'. congruence.
       - intros [e' H]. discriminate H.
       - intros (s' & uid' & _ & _ & _ & Hq'). congruence. }
  unfold setattr, commit, rollback. simpl.
  destruct (commit_fails db) eqn:Hcf; simpl.
  - split; [|split]; [split | split | auto].
    + discriminate.
    + intros (uid' & u' & _ & Hcf'). discriminate Hcf'.
    + intros [e' H]. discriminate H.
    + intros (s' & uid' & _ & _ & _ & Hq'). congruence.
  - split; [|split]; [split | split | auto].
    + intros _. exists uid, u. split; [|reflexivity]. exists s, v. auto 6.
    + reflexivity.
    + intros [e' H]. discriminate H.
    + intros (s' & uid' & _ & _ & _ & Hq'). congruence.
Qed.

(** ** What a delivery does to the table (fullfillment.py) *)

(** X3 (fullfillment.py): the first delivery of a paid session for a user
    without access returns [True]; afterwards that user's row has the flag
    set and every other column as before, every other row is untouched,
    nothing is left pending, and the session saw one query, one
    assignment and one commit. *)
Theorem first_delivery_grants
    (env : Env) (session_id : string) (uid : Z) (u : Models.User) (db : Db) :
  resolves_to env db session_id uid u ->
  pending db = ∅ -> commit_fails db = false -> Models.has_access u = false ->
  exists db' u',
    Fullfillment.fulfill_service env session_id db = (Ok true, db')
    /\ table db' !! uid = Some u'
    /\ Models.has_access u' = true
    /\ Models.email u' = Models.email u
    /\ Models.hashed_password u' = Models.hashed_password u
    /\ Models.name u' = Models.name u
    /\ Models.referral_code u' = Models.referral_code u
    /\ Models.referrer_id u' = Models.referrer_id u
    /\ (forall uid', uid' <> uid -> table db' !! uid' = table db !! uid')
    /\ dom (table db') = dom (table db)
    /\ pending db' = ∅
    /\ trace db'
       = (trace db ++ [OpQuery uid; OpSetAttr uid "has_access" true; OpCommit])%list.
Proof.
  intros Hr Hpe Hcf Ha.
  destruct (fulfill_service_grants _ _ _ _ _ Hr Hpe Hcf Ha)
    as (db' & E & Ht & Hp' & _ & Htr & _).
  assert (Hu : table db !! uid = Some u).
  { destruct Hr as (_ & _ & _ & _ & _ & _ & Hf).
    exact (find_user_clean _ _ _ Hpe Hf). }
  exists db', (Models.set_has_access true u).
  split; [exact E|]. rewrite Ht.
  split; [apply lookup_insert_eq|].
  do 6 (split; [reflexivity|]).
  split; [|split; [|split]]; auto.
  - intros uid' Hne. apply lookup_insert_ne. congruence.
  - apply dom_insert_lookup_L. rewrite Hu. eauto.
Qed.

Lemma first_delivery_grants_witness :
  exists db' u',
    Fullfillment.fulfill_service Scenario.env0 "cs_1" Scenario.db0 = (Ok true, db')
    /\ table db' !! 42 = Some u'
    /\ Models.has_access u' = true
    /\ Models.email u' = Models.email Scenario.user42
    /\ Models.hashed_password u' = Models.hashed_password Scenario.user42
    /\ Models.name u' = Models.name Scenario.user42
    /\ Models.referral_code u' = Models.referral_code Scenario.user42
    /\ Models.referrer_id u' = Models.referrer_id Scenario.user42
    /\ (forall uid', uid' <> 42 -> table db' !! uid' = table Scenario.db0 !! uid')
    /\ dom (table db') = dom (table Scenario.db0)
    /\ pending db' = ∅
    /\ trace db'
       = (trace Scenario.db0 ++ [OpQuery 42; OpSetAttr 42 "has_access" true; OpCommit])%list.
Proof.
  apply (first_delivery_grants Scenario.env0 "cs_1" 42 Scenario.user42 Scenario.db0).
  - apply (cs_1_resolves _ Scenario.user42). reflexivity.
  - reflexivity.
  - reflexivity.
  - reflexivity.
Defined.

(** X5 (fullfillment.py): on a clean session, whatever the provider
    answers, a call changes at most one row, and only by turning a false
    flag into true: no row is added or removed, no other column changes,
    and no user who had access loses it. *)
Theorem fullfillment_only_grants (env : Env) (session_id : string) (db : Db) :
  pending db = ∅ ->
  let db' := snd (Fullfillment.fulfill_service env session_id db) in
  (table db' = table db
   \/ exists uid u,
        table db !! uid = Some u /\ Models.has_access u = false
        /\ table db' = <[uid := Models.set_has_access true u]> (table db))
  /\ dom (table db') = dom (table db)
  /\ forall uid u,
       table db !! uid = Some u -> Models.has_access u = true ->
       table db' !! uid = Some u.
Proof.
  intros Hpe db'.
  assert (H : table db' = table db
              \/ exists uid u,
                   table db !! uid = Some u /\ Models.has_access u = false
                   /\ table db' = <[uid := Models.set_has_access true u]> (table db)).
  { subst db'. unfold Fullfillment.fulfill_service. run_m.
    destruct (Session_retrieve env session_id) as [s|e]; simpl; [|auto].
    destruct (String.eqb (payment_status s) "paid"); simpl; [|auto].
    destruct (Py.truthy_str (metadata s !! "cartID")) as [v|]; simpl; [|auto].
    destruct (Py.int v) as [uid|]; simpl; [|auto].
    destruct (query_fails db) eqn:Hq; simpl; [auto|].
    destruct (find_user db uid) as [u|] eqn:Hf; simpl; [|auto].
    destruct (Models.has_access u) eqn:Ha; simpl; [auto|].
    unfold setattr, commit. simpl.
    assert (Hf' : find_user (log (OpSetAttr uid "has_access" true)
                               (log (OpQuery uid) db)) uid = Some u) by exact Hf.
    rewrite Hf'. simpl. destruct (commit_fails db); simpl; [auto|].
    right. exists uid, u. apply (find_user_clean _ _ _ Hpe) in Hf.
    repeat split; auto. rewrite Hpe.
    rewrite insert_empty, <- insert_union_singleton_l. reflexivity. }
  split; [exact H|].
  destruct H as [-> | (uid & u & Hu & Ha & ->)].
  - split; [reflexivity | auto].
  - split.
    + apply dom_insert_lookup_L. rewrite Hu. eauto.
    + intros uid' u' Hu' Ha'. rewrite lookup_insert_ne; [exact Hu'|].
      intros ->. rewrite Hu in Hu'. injection Hu' as ->. congruence.
Qed.

Lemma fullfillment_only_grants_witness :
  let db' := snd (Fullfillment.fulfill_service Scenario.env0 "cs_1" Scenario.db_granted) in
  (table db' = table Scenario.db_granted
   \/ exists uid u,
        table Scenario.db_granted !! uid = Some u /\ Models.has_access u = false
        /\ table db' = <[uid := Models.set_has_access true u]> (table Scenario.db_granted))
  /\ dom (table db') = dom (table Scenario.db_granted)
  /\ forall uid u,
       table Scenario.db_granted !! uid = Some u -> Models.has_access u = true ->
       table db' !! uid = Some u.
Proof.
  apply (fullfillment_only_grants Scenario.env0 "cs_1" Scenario.db_granted).
  reflexivity.
Defined.

(** ** Outages *)

(** X6: when the provider cannot return the session, no variant touches
    the store: both [fulfill_service] functions return [False] and
    [fulfill_order] returns, the session and store being exactly as
    before. *)
Theorem retrieval_failure_not_fulfilled
    (env : Env) (session_id : string) (e : Exn) (db : Db) :
  Session_retrieve env session_id = Raise e ->
  Fullfillment.fulfill_service env session_id db = (Ok false, db)
  /\ WebhookHandler.fulfill_service env session_id db = (Ok false, db)
  /\ Main.fulfill_order env session_id db = (Ok tt, db).
Proof.
  intros H.
  unfold Fullfillment.fulfill_service, WebhookHandler.fulfill_service,
    Main.fulfill_order.
  run_m. rewrite H. repeat split; reflexivity.
Qed.

Lemma retrieval_failure_not_fulfilled_witness :
  Fullfillment.fulfill_service Scenario.env0 "cs_gone" Scenario.db0
    = (Ok false, Scenario.db0)
  /\ WebhookHandler.fulfill_service Scenario.env0 "cs_gone" Scenario.db0
     = (Ok false, Scenario.db0)
  /\ Main.fulfill_order Scenario.env0 "cs_gone" Scenario.db0 = (Ok tt, Scenario.db0).
Proof.
  apply (retrieval_failure_not_fulfilled Scenario.env0 "cs_gone"
           (StripeError "No such checkout.session")).
  reflexivity.
Defined.

(** X7 (fullfillment.py): when the commit of a first delivery fails, the
    exception is swallowed: [fulfill_service] returns [False], no row of
    the table has changed, and no rollback was issued. *)
Theorem fullfillment_commit_failure
    (env : Env) (session_id : string) (uid : Z) (u : Models.User) (db : Db) :
  resolves_to env db session_id uid u ->
  Models.has_access u = false -> commit_fails db = true ->
  exists db',
    Fullfillment.fulfill_service env session_id db = (Ok false, db')
    /\ table db' = table db
    /\ trace db'
       = (trace db ++ [OpQuery uid; OpSetAttr uid "has_access" true; OpCommit])%list.
Proof.
  intros Hr Ha Hcf. unfold Fullfillment.fulfill_service.
  resolve_session Hr. rewrite Ha. simpl. unfold setattr, commit. simpl.
  assert (Hf' : find_user (log (OpSetAttr uid "has_access" true)
                             (log (OpQuery uid) db)) uid = Some u) by assumption.
  rewrite Hf'. simpl. rewrite Hcf. simpl.
  eexists. split; [reflexivity|]. simpl. split; [reflexivity|].
  rewrite <- !app_assoc. reflexivity.
Qed.

Lemma cs_1_resolves_down :
  resolves_to Scenario.env0 Outage.db_down "cs_1" 42 Scenario.user42.
Proof.
  exists Scenario.cs_1, "42". repeat split; reflexivity.
Qed.

Lemma fullfillment_commit_failure_witness :
  exists db',
    Fullfillment.fulfill_service Scenario.env0 "cs_1" Outage.db_down = (Ok false, db')
    /\ table db' = table Outage.db_down
    /\ trace db'
       = (trace Outage.db_down
            ++ [OpQuery 42; OpSetAttr 42 "has_access" true; OpCommit])%list.
Proof.
  apply (fullfillment_commit_failure Scenario.env0 "cs_1" 42 Scenario.user42).
  - apply cs_1_resolves_down.
  - reflexivity.
  - reflexivity.
Defined.

(** X8 (webhook-handler.py): when the commit fails, [fulfill_service]
    rolls back and returns [False]: the trace ends with the failed commit
    and the rollback, nothing is left pending and no row has changed. *)
Theorem webhook_fulfill_commit_failure
    (env : Env) (session_id : string) (uid : Z) (u : Models.User) (db : Db) :
  resolves_to env db session_id uid u ->
  pending db = ∅ -> commit_fails db = true ->
  exists db',
    WebhookHandler.fulfill_service env session_id db = (Ok false, db')
    /\ table db' = table db /\ pending db' = ∅
    /\ trace db'
       = (trace db ++ [OpQuery uid; OpSetAttr uid "has_platform_access" true;
                       OpCommit; OpRollback])%list.
Proof.
  intros Hr Hpe Hcf. unfold WebhookHandler.fulfill_service.
  resolve_session Hr. unfold setattr, commit, rollback. simpl.
  rewrite Hcf. simpl.
  eexists. split; [reflexivity|]. simpl. repeat split.
  rewrite <- !app_assoc. reflexivity.
Qed.

Lemma webhook_fulfill_commit_failure_witness :
  exists db',
    WebhookHandler.fulfill_service Scenario.env0 "cs_1" Outage.db_down = (Ok false, db')
    /\ table db' = table Outage.db_down /\ pending db' = ∅
    /\ trace db'
       = (trace Outage.db_down
            ++ [OpQuery 42; OpSetAttr 42 "has_platform_access" true;
                OpCommit; OpRollback])%list.
Proof.
  apply (webhook_fulfill_commit_failure Scenario.env0 "cs_1" 42 Scenario.user42).
  - apply cs_1_resolves_down.
  - reflexivity.
  - reflexivity.
Defined.

(** ** Rejected deliveries *)

(** X9 (main.py): whatever the verifier raises, the endpoint queues no
    task and the store is left as it was; an invalid payload and an
    invalid signature are answered with a 400 and their own detail, any
    other exception leaves the endpoint as it is. *)
Theorem main_rejects_unverified
    (env : Env) (request : Request) (e : Exn) (db : Db) :
  Webhook_construct_event env (body request)
      (headers request !! "stripe-signature") (Main.endpoint_secret env)
    = Raise e ->
  snd (Main.stripe_webhook env request) = []
  /\ snd (Main.serve env request db) = db
  /\ match e with
     | ValueError _ =>
         fst (Main.serve env request db)
         = {| status := 400; content := Json [("detail", "Invalid payload")] |}
     | SignatureVerificationError =>
         fst (Main.serve env request db)
         = {| status := 400; content := Json [("detail", "Invalid signature")] |}
     | _ => fst (Main.stripe_webhook env request) = Raise e
     end.
Proof.
  intros H. unfold Main.serve, Main.stripe_webhook. rewrite H.
  destruct e; repeat split; reflexivity.
Qed.

Lemma main_rejects_unverified_witness :
  snd (Main.stripe_webhook Scenario.env0 (Scenario.mk_request "forged")) = []
  /\ snd (Main.serve Scenario.env0 (Scenario.mk_request "forged") Scenario.db0)
     = Scenario.db0
  /\ fst (Main.serve Scenario.env0 (Scenario.mk_request "forged") Scenario.db0)
     = {| status := 400; content := Json [("detail", "Invalid signature")] |}.
Proof.
  apply (main_rejects_unverified Scenario.env0 (Scenario.mk_request "forged")
           SignatureVerificationError Scenario.db0).
  reflexivity.
Defined.

(** X10 (webhook-handler.py): whatever the verifier raises, the endpoint
    leaves session and store as they were and does not return normally: a
    signature failure becomes [HTTPException(400, "Invalid webhook
    signature")], every other exception propagates unchanged. *)
Theorem webhook_rejects_unverified
    (env : Env) (request : Request) (e : Exn) (db : Db) :
  Webhook_construct_event env (body request)
      (headers request !! "stripe-signature")
      (Some (WebhookHandler.STRIPE_WEBHOOK_SECRET env))
    = Raise e ->
  WebhookHandler.stripe_webhook env request db
  = (Raise match e with
           | SignatureVerificationError =>
               HTTPException 400 "Invalid webhook signature"
           | _ => e
           end, db).
Proof.
  intros H. unfold WebhookHandler.stripe_webhook. rewrite H.
  destruct e; reflexivity.
Qed.

Lemma webhook_rejects_unverified_witness :
  WebhookHandler.stripe_webhook Outage.env1 (Scenario.mk_request "timeout") Scenario.db0
  = (Raise (StripeError "connection timed out"), Scenario.db0).
Proof.
  apply (webhook_rejects_unverified Outage.env1 (Scenario.mk_request "timeout")
           (StripeError "connection timed out") Scenario.db0).
  reflexivity.
Defined.

(** ** Routing *)

(** X11 (webhook-handler.py): for a verified event, what the endpoint
    does to session and store is what the one handler selected by the
    event type does: [fulfill_service] on the object's id for the two
    checkout types, the matching invoice handler for the two invoice
    types, and nothing at all for every other type. *)
Theorem webhook_routes_one_handler
    (env : Env) (request : Request) (event : Event) (db : Db) :
  Webhook_construct_event env (body request)
      (headers request !! "stripe-signature")
      (Some (WebhookHandler.STRIPE_WEBHOOK_SECRET env))
    = Ok event ->
  snd (WebhookHandler.stripe_webhook env request db)
  = if WebhookHandler.is_checkout_event (ev_type event)
    then snd (WebhookHandler.fulfill_service env (obj_id (ev_object event)) db)
    else if String.eqb (ev_type event) "invoice.payment_succeeded"
    then snd (WebhookHandler.handle_invoice_payment_succeeded (ev_object event) db)
    else if String.eqb (ev_type event) "invoice.payment_failed"
    then snd (WebhookHandler.handle_invoice_payment_failed (ev_object event) db)
    else db.
Proof.
  intros H. unfold WebhookHandler.stripe_webhook. rewrite H.
  destruct (WebhookHandler.is_checkout_event (ev_type event)).
  - unfold mbind, M_bind.
    destruct (WebhookHandler.fulfill_service env (obj_id (ev_object event)) db)
      as [[[]|e] d]; reflexivity.
  - unfold mbind, M_bind.
    repeat match goal with
           | |- context [if String.eqb ?a ?b then _ else _] =>
               destruct (String.eqb a b)
           end;
      try reflexivity.
    + destruct (WebhookHandler.handle_invoice_payment_succeeded (ev_object event) db)
        as [[[]|e] d]; reflexivity.
    + destruct (WebhookHandler.handle_invoice_payment_failed (ev_object event) db)
        as [[[]|e] d]; reflexivity.
Qed.

Lemma webhook_routes_one_handler_witness :
  snd (WebhookHandler.stripe_webhook Outage.env1 (Scenario.mk_request "renewed")
         Scenario.db0)
  = if WebhookHandler.is_checkout_event "invoice.payment_succeeded"
    then snd (WebhookHandler.fulfill_service Outage.env1 "in_1" Scenario.db0)
    else if String.eqb "invoice.payment_succeeded" "invoice.payment_succeeded"
    then snd (WebhookHandler.handle_invoice_payment_succeeded Scenario.in_1 Scenario.db0)
    else if String.eqb "invoice.payment_succeeded" "invoice.payment_failed"
    then snd (WebhookHandler.handle_invoice_payment_failed Scenario.in_1 Scenario.db0)
    else Scenario.db0.
Proof.
  apply (webhook_routes_one_handler Outage.env1 (Scenario.mk_request "renewed")
           {| ev_type := "invoice.payment_succeeded"; ev_object := Scenario.in_1 |}).
  reflexivity.
Defined.

(** X12 (webhook-handler.py): a verified event whose type is none of the
    four handled ones -- the two subscription-schedule types included --
    is acknowledged, and session and store are exactly as before. *)
Theorem webhook_ignores_other_events
    (env : Env) (request : Request) (event : Event) (db : Db) :
  Webhook_construct_event env (body request)
      (headers request !! "stripe-signature")
      (Some (WebhookHandler.STRIPE_WEBHOOK_SECRET env))
    = Ok event ->
  ev_type event <> "checkout.session.completed" ->
  ev_type event <> "checkout.session.async_payment_succeeded" ->
  ev_type event <> "invoice.payment_succeeded" ->
  ev_type event <> "invoice.payment_failed" ->
  WebhookHandler.stripe_webhook env request db = (Ok success_ack, db).
Proof.
  intros H H1 H2 H3 H4. unfold WebhookHandler.stripe_webhook. rewrite H.
  unfold WebhookHandler.is_checkout_event.
  apply String.eqb_neq in H1, H2, H3, H4. rewrite H1, H2, H3, H4. simpl.
  unfold mbind, M_bind.
  repeat match goal with
         | |- context [if String.eqb ?a ?b then _ else _] =>
             destruct (String.eqb a b)
         end; reflexivity.
Qed.

Lemma webhook_ignores_other_events_witness :
  WebhookHandler.stripe_webhook Outage.env1 (Scenario.mk_request "scheduled") Scenario.db0
  = (Ok success_ack, Scenario.db0).
Proof.
  apply (webhook_ignores_other_events Outage.env1 (Scenario.mk_request "scheduled")
           {| ev_type := "subscription_schedule.created"; ev_object := Outage.schedule |}).
  - reflexivity.
  - discriminate.
  - discriminate.
  - discriminate.
  - discriminate.
Defined.

(** [fulfill_order] always returns. *)
Lemma fulfill_order_returns (env : Env) (session_id : string) (db : Db) :
  exists db', Main.fulfill_order env session_id db = (Ok tt, db').
Proof.
  unfold Main.fulfill_order.
  destruct (Session_retrieve env session_id) as [s|e]; [|run_m; eauto].
  destruct (negb (String.eqb (payment_status s) "paid")); [run_m; eauto|].
  destruct (Py.truthy_str (metadata s !! "cartID")) as [v|]; [|run_m; eauto].
  destruct (Py.int v) as [uid|]; [|run_m; eauto].
  unfold SessionLocal, setattr, add, commit, rollback, close,
    Main.mark_session_as_fulfilled. run_m.
  destruct (query_fails db); simpl; [eauto|].
  destruct (find_user _ uid); simpl; [|eauto].
  destruct (commit_fails db); simpl; eauto.
Qed.

(** X13 (main.py): a verified event is always acknowledged; the store
    after the request is the store after [fulfill_order] on the object's
    id for the two checkout types, and the store before for every other
    type, the two invoice types included. *)
Theorem main_routes_background_task
    (env : Env) (request : Request) (event : Event) (db : Db) :
  Webhook_construct_event env (body request)
      (headers request !! "stripe-signature") (Main.endpoint_secret env)
    = Ok event ->
  fst (Main.serve env request db) = ack_response
  /\ (length (snd (Main.stripe_webhook env request)) <= 1)%nat
  /\ snd (Main.serve env request db)
     = if Main.is_checkout_event (ev_type event)
       then snd (Main.fulfill_order env (obj_id (ev_object event)) db)
       else db.
Proof.
  intros H. unfold Main.serve, Main.stripe_webhook. rewrite H.
  split; [reflexivity|].
  destruct (Main.is_checkout_event (ev_type event)); simpl.
  - split; [lia|].
    destruct (fulfill_order_returns env (obj_id (ev_object event)) db) as (d & E).
    rewrite E. reflexivity.
  - repeat match goal with
           | |- context [if String.eqb ?a ?b then _ else _] =>
               destruct (String.eqb a b)
           end; simpl; split; (lia || reflexivity).
Qed.

Lemma main_routes_background_task_witness :
  fst (Main.serve Scenario.env0 (Scenario.mk_request "failed") Scenario.db_granted)
    = ack_response
  /\ (length (snd (Main.stripe_webhook Scenario.env0 (Scenario.mk_request "failed"))) <= 1)%nat
  /\ snd (Main.serve Scenario.env0 (Scenario.mk_request "failed") Scenario.db_granted)
     = if Main.is_checkout_event "invoice.payment_failed"
       then snd (Main.fulfill_order Scenario.env0 "in_1" Scenario.db_granted)
       else Scenario.db_granted.
Proof.
  apply (main_routes_background_task Scenario.env0 (Scenario.mk_request "failed")
           {| ev_type := "invoice.payment_failed"; ev_object := Scenario.in_1 |}).
  reflexivity.
Defined.

(** X14 (main.py): [fulfill_order] on a retrieved session.  An unpaid
    session, or a paid one whose "cartID" is missing, empty or no integer
    literal, leaves session and store untouched.  A paid session whose
    "cartID" reads as [uid] opens a session, looks up exactly that user
    first and closes the session last, whatever happens in between: a
    failing query is rolled back, an unknown user ends the work, a found
    user is assigned, added and committed, and a failing commit is rolled
    back.  In every case the function returns normally. *)
Theorem fulfill_order_closes_session
    (env : Env) (session_id : string) (s : CheckoutSession) (db : Db) :
  Session_retrieve env session_id = Ok s ->
  (payment_status s <> "paid" ->
   Main.fulfill_order env session_id db = (Ok tt, db))
  /\ (payment_status s = "paid" ->
      match cart_user_id (metadata s) with
      | None => Main.fulfill_order env session_id db = (Ok tt, db)
      | Some uid =>
          exists db',
            Main.fulfill_order env session_id db = (Ok tt, db')
            /\ pending db' = ∅
            /\ trace db'
               = (trace db
                    ++ OpQuery uid
                    :: (if query_fails db then [OpRollback]
                        else match table db !! uid with
                             | None => []
                             | Some _ =>
                                 [OpSetAttr uid "has_platform_access" true;
                                  OpAdd uid; OpCommit]
                                 ++ (if commit_fails db then [OpRollback] else [])
                             end)
                    ++ [OpClose])%list
      end).
Proof.
  intros H. unfold Main.fulfill_order. rewrite H. split; intros Hp.
  - apply String.eqb_neq in Hp. rewrite Hp. reflexivity.
  - apply String.eqb_eq in Hp. rewrite Hp. simpl. unfold cart_user_id.
    destruct (Py.truthy_str (metadata s !! "cartID")) as [v|]; simpl;
      [|reflexivity].
    destruct (Py.int v) as [uid|]; simpl; [|reflexivity].
    unfold SessionLocal, setattr, add, commit, rollback, close,
      Main.mark_session_as_fulfilled. run_m.
    destruct (query_fails db) eqn:Hq; simpl.
    { eexists. split; [reflexivity|]. simpl. split; [reflexivity|].
      rewrite <- !app_assoc. reflexivity. }
    unfold find_user. simpl. rewrite (left_id_L ∅ (∪)).
    destruct (table db !! uid) as [u|]; simpl.
    + destruct (commit_fails db); simpl;
        (eexists; split; [reflexivity|]; simpl; split; [reflexivity|];
         rewrite <- !app_assoc; reflexivity).
    + eexists. split; [reflexivity|]. simpl. split; [reflexivity|].
      rewrite <- !app_assoc. reflexivity.
Qed.

Lemma fulfill_order_closes_session_witness :
  (payment_status Scenario.cs_1 <> "paid" ->
   Main.fulfill_order Scenario.env0 "cs_1" Outage.db_down = (Ok tt, Outage.db_down))
  /\ exists db',
       Main.fulfill_order Scenario.env0 "cs_1" Outage.db_down = (Ok tt, db')
       /\ pending db' = ∅
       /\ trace db'
          = (trace Outage.db_down
               ++ [OpQuery 42; OpSetAttr 42 "has_platform_access" true;
                   OpAdd 42; OpCommit; OpRollback; OpClose])%list.
Proof.
  destruct (fulfill_order_closes_session Scenario.env0 "cs_1" Scenario.cs_1
              Outage.db_down eq_refl) as [Hu Hp].
  split; [exact Hu|]. exact (Hp eq_refl).
Defined.

(** ** The payment-link endpoint *)

Lemma PRICE_IDS_known (plan price : string) :
  PaymentLink.PRICE_IDS !! plan = Some price ->
  (plan = "bronze" /\ price = "price_1QhzfBIZhbjcBaqMHUSuptHA")
  \/ (plan = "silver" /\ price = "price_1QhzfAIZhbjcBaqMSilverXXX")
  \/ (plan = "gold" /\ price = "price_1QhzfAIZhbjcBaqMGoldXXX").
Proof.
  unfold PaymentLink.PRICE_IDS. intros H.
  destruct (decide (plan = "bronze")) as [->|Hb].
  { rewrite lookup_insert_eq in H. injection H as <-. auto. }
  rewrite lookup_insert_ne in H by congruence.
  destruct (decide (plan = "silver")) as [->|Hs].
  { rewrite lookup_insert_eq in H. injection H as <-. auto. }
  rewrite lookup_insert_ne in H by congruence.
  destruct (decide (plan = "gold")) as [->|Hg].
  { rewrite lookup_insert_eq in H. injection H as <-. auto. }
  rewrite lookup_insert_ne in H by congruence.
  rewrite lookup_empty in H. discriminate H.
Qed.

(** X15 (payment-link.py): when the endpoint returns a link, the provider
    was asked for exactly one unit of the price configured for the
    requested plan, with the confirmation message naming the capitalised
    plan; the plan, price and message are one of three fixed triples
    (plan names are matched exactly, lower case); the response is the
    provider's URL and the session saw the user query only. *)
Theorem payment_link_created
    (env : Env) (request : PaymentLink.PaymentLinkRequest) (db db' : Db) (b : Body) :
  PaymentLink.create_payment_link env request db = (Ok b, db') ->
  exists price url,
    let params := PaymentLink.payment_link_params request price in
    PaymentLink_create env params = Ok url
    /\ b = Json [("payment_link_url", url)]
    /\ http_response (Ok b) = {| status := 200; content := Json [("payment_link_url", url)] |}
    /\ line_items params = [(price, 1)]
    /\ In (PaymentLink.plan request, price, custom_message params)
         [("bronze", "price_1QhzfBIZhbjcBaqMHUSuptHA",
           "Thank you for subscribing to the Bronze plan!");
          ("silver", "price_1QhzfAIZhbjcBaqMSilverXXX",
           "Thank you for subscribing to the Silver plan!");
          ("gold", "price_1QhzfAIZhbjcBaqMGoldXXX",
           "Thank you for subscribing to the Gold plan!")]
    /\ is_Some (find_user db (PaymentLink.user_id request))
    /\ db' = log (OpQuery (PaymentLink.user_id request)) db.
Proof.
  intros H.
  destruct (payment_link_accepted _ _ _ _ _ H)
    as (u & price & url & Hf & Hp & Hl & -> & ->).
  exists price, url. simpl.
  split; [exact Hl|]. do 3 (split; [reflexivity|]).
  split; [|split; [rewrite Hf; eauto | reflexivity]].
  unfold PaymentLink.payment_link_params. simpl.
  destruct (PRICE_IDS_known _ _ Hp) as [[-> ->] | [[-> ->] | [-> ->]]]; simpl;
    auto.
Qed.

Lemma payment_link_created_witness :
  let request := {| PaymentLink.user_id := 42; PaymentLink.plan := "silver" |} in
  exists price url,
    let params := PaymentLink.payment_link_params request price in
    PaymentLink_create Scenario.env0 params = Ok url
    /\ Json [("payment_link_url", "https://buy.stripe.com/test_1")]
       = Json [("payment_link_url", url)]
    /\ http_response (Ok (Json [("payment_link_url", "https://buy.stripe.com/test_1")]))
       = {| status := 200; content := Json [("payment_link_url", url)] |}
    /\ line_items params = [(price, 1)]
    /\ In (PaymentLink.plan request, price, custom_message params)
         [("bronze", "price_1QhzfBIZhbjcBaqMHUSuptHA",
           "Thank you for subscribing to the Bronze plan!");
          ("silver", "price_1QhzfAIZhbjcBaqMSilverXXX",
           "Thank you for subscribing to the Silver plan!");
          ("gold", "price_1QhzfAIZhbjcBaqMGoldXXX",
           "Thank you for subscribing to the Gold plan!")]
    /\ is_Some (find_user Scenario.db0 (PaymentLink.user_id request))
    /\ log (OpQuery 42) Scenario.db0
       = log (OpQuery (PaymentLink.user_id request)) Scenario.db0.
Proof.
  apply (payment_link_created Scenario.env0
           {| PaymentLink.user_id := 42; PaymentLink.plan := "silver" |}
           Scenario.db0 (log (OpQuery 42) Scenario.db0)
           (Json [("payment_link_url", "https://buy.stripe.com/test_1")])).
  vm_compute. reflexivity.
Defined.

(** X16 (payment-link.py): for an existing user and a configured plan, a
    provider failure is answered with a 500 whose detail carries the
    provider's message; the session saw the user query only. *)
Theorem payment_link_provider_failure
    (env : Env) (request : PaymentLink.PaymentLinkRequest)
    (u : Models.User) (price : string) (e : Exn) (db : Db) :
  find_user db (PaymentLink.user_id request) = Some u ->
  PaymentLink.PRICE_IDS !! PaymentLink.plan request = Some price ->
  PaymentLink_create env (PaymentLink.payment_link_params request price) = Raise e ->
  PaymentLink.create_payment_link env request db
  = (Raise (HTTPException 500 ("Failed to create payment link: " ++ exn_message e)),
     log (OpQuery (PaymentLink.user_id request)) db)
  /\ status (http_response (fst (PaymentLink.create_payment_link env request db))) = 500.
Proof.
  intros Hf Hp He.
  assert (E : PaymentLink.create_payment_link env request db
              = (Raise (HTTPException 500
                          ("Failed to create payment link: " ++ exn_message e)),
                 log (OpQuery (PaymentLink.user_id request)) db)).
  { destruct (find_user_Some _ _ _ Hf) as [Hq _].
    unfold PaymentLink.create_payment_link. run_m.
    rewrite Hq, Hf, Hp, He. reflexivity. }
  rewrite E. split; reflexivity.
Qed.

Lemma payment_link_provider_failure_witness :
  let request := {| PaymentLink.user_id := 42; PaymentLink.plan := "gold" |} in
  PaymentLink.create_payment_link Outage.env1 request Scenario.db0
  = (Raise (HTTPException 500
              ("Failed to create payment link: "
                 ++ exn_message (StripeError "api_connection_error"))),
     log (OpQuery (PaymentLink.user_id request)) Scenario.db0)
  /\ status (http_response
               (fst (PaymentLink.create_payment_link Outage.env1 request Scenario.db0)))
     = 500.
Proof.
  apply (payment_link_provider_failure Outage.env1
           {| PaymentLink.user_id := 42; PaymentLink.plan := "gold" |}
           Scenario.user42 "price_1QhzfAIZhbjcBaqMGoldXXX"
           (StripeError "api_connection_error") Scenario.db0).
  - reflexivity.
  - reflexivity.
  - reflexivity.
Defined.

(** X17 (payment-link.py): whatever the request and the provider do, the
    endpoint issues exactly one user query and nothing else -- no
    assignment, no commit -- and answers with one of 200, 400, 404 and
    500. *)
Theorem payment_link_reads_only
    (env : Env) (request : PaymentLink.PaymentLinkRequest) (db : Db) :
  snd (PaymentLink.create_payment_link env request db)
  = log (OpQuery (PaymentLink.user_id request)) db
  /\ In (status (http_response (fst (PaymentLink.create_payment_link env request db))))
       [200; 400; 404; 500].
Proof.
  unfold PaymentLink.create_payment_link. run_m.
  destruct (query_fails db); simpl; [auto 6|].
  destruct (find_user db (PaymentLink.user_id request)); simpl; [|auto].
  destruct (PaymentLink.PRICE_IDS !! PaymentLink.plan request); simpl; [|auto].
  destruct (PaymentLink_create env _); simpl; auto 6.
Qed.

(** X18 (payment-link.py): the correlation key identifies the user: two
    requests are given the same metadata exactly when they name the same
    user identifier, whatever their plans. *)
Theorem cart_id_identifies_user
    (r1 r2 : PaymentLink.PaymentLinkRequest) (p1 p2 : string) :
  link_metadata (PaymentLink.payment_link_params r1 p1)
  = link_metadata (PaymentLink.payment_link_params r2 p2)
  <-> PaymentLink.user_id r1 = PaymentLink.user_id r2.
Proof.
  unfold PaymentLink.payment_link_params. simpl. split.
  - intros H.
    assert (E : ({[ "cartID" := Py.str (PaymentLink.user_id r1) ]}
                   : gmap string string) !! "cartID"
                = ({[ "cartID" := Py.str (PaymentLink.user_id r2) ]}
                   : gmap string string) !! "cartID")
      by (rewrite H; reflexivity).
    rewrite !lookup_singleton_eq in E. injection E as E.
    pose proof (PyFacts.int_str (PaymentLink.user_id r1)) as H1.
    rewrite E, PyFacts.int_str in H1. congruence.
  - intros ->. reflexivity.
Qed.

(** X19 (payment-link.py, fullfillment.py): issue then fulfil.  After the
    endpoint has returned a link for a user without access, the delivery
    of a paid session carrying the issued metadata makes fullfillment.py
    return [True] and sets the flag of that very user, every other row
    staying as it was. *)
Theorem issued_link_fulfills_its_user
    (env : Env) (request : PaymentLink.PaymentLinkRequest) (db db1 : Db) (b : Body)
    (session_id : string) (s : CheckoutSession) (price0 : string) :
  PaymentLink.create_payment_link env request db = (Ok b, db1) ->
  Session_retrieve env session_id = Ok s ->
  payment_status s = "paid" ->
  metadata s = link_metadata (PaymentLink.payment_link_params request price0) ->
  pending db = ∅ -> commit_fails db = false ->
  Models.has_access <$> find_user db (PaymentLink.user_id request) = Some false ->
  exists db2,
    Fullfillment.fulfill_service env session_id db1 = (Ok true, db2)
    /\ Models.has_access <$> table db2 !! PaymentLink.user_id request = Some true
    /\ forall uid', uid' <> PaymentLink.user_id request ->
         table db2 !! uid' = table db !! uid'.
Proof.
  intros Hc Hs Hp Hm Hpe Hcf Ha.
  destruct (payment_link_accepted _ _ _ _ _ Hc) as (u & _ & _ & Hf & _ & _ & _ & ->).
  rewrite Hf in Ha. injection Ha as Ha.
  assert (Hr : resolves_to env (log (OpQuery (PaymentLink.user_id request)) db)
                 session_id (PaymentLink.user_id request) u).
  { exists s, (Py.str (PaymentLink.user_id request)). repeat split; auto.
    - rewrite Hm. apply lookup_singleton_eq.
    - apply PyFacts.int_str. }
  destruct (fulfill_service_grants _ _ _ _ _ Hr Hpe Hcf Ha)
    as (db2 & E & Ht & _).
  exists db2. split; [exact E|]. simpl in Ht. rewrite Ht. split.
  - rewrite lookup_insert_eq. reflexivity.
  - intros uid' Hne. apply lookup_insert_ne. congruence.
Qed.

Lemma issued_link_fulfills_its_user_witness :
  exists db2,
    Fullfillment.fulfill_service Scenario.env0 "cs_1" (log (OpQuery 42) Scenario.db0)
      = (Ok true, db2)
    /\ Models.has_access <$> table db2 !! 42 = Some true
    /\ forall uid', uid' <> 42 -> table db2 !! uid' = table Scenario.db0 !! uid'.
Proof.
  apply (issued_link_fulfills_its_user Scenario.env0
           {| PaymentLink.user_id := 42; PaymentLink.plan := "gold" |}
           Scenario.db0 (log (OpQuery 42) Scenario.db0)
           (Json [("payment_link_url", "https://buy.stripe.com/test_1")])
           "cs_1" Scenario.cs_1 "price_1QhzfAIZhbjcBaqMGoldXXX").
  - vm_compute. reflexivity.
  - reflexivity.
  - reflexivity.
  - vm_compute. reflexivity.
  - reflexivity.
  - reflexivity.
  - reflexivity.
Defined.

(** ** Redelivery *)

Lemma redeliver_replay
    (env : Env) (session_id : string) (uid : Z) (u : Models.User) (n : nat) :
  forall db,
    resolves_to env db session_id uid u -> Models.has_access u = true ->
    table (redeliver (Fullfillment.fulfill_service env session_id) n db) = table db
    /\ pending (redeliver (Fullfillment.fulfill_service env session_id) n db)
       = pending db.
Proof.
  induction n as [|n IH]; intros db Hr Ha; simpl; [split; reflexivity|].
  rewrite (fulfill_service_replay _ _ _ _ _ Hr Ha). simpl.
  assert (Hr' : resolves_to env (log (OpQuery uid) db) session_id uid u).
  { destruct Hr as (s & v & Hs & Hp & Hv & Hi & Hf). exists s, v. auto 6. }
  destruct (IH _ Hr' Ha) as [Ht Hp]. split; [exact Ht | exact Hp].
Qed.

(** X4 (fullfillment.py): at-least-once delivery is harmless.  For a paid
    session that resolves to an existing user, any number [n >= 1] of
    deliveries leaves the table exactly as a single delivery does, with
    the user's flag set. *)
Theorem redelivery_is_idempotent
    (env : Env) (session_id : string) (uid : Z) (u : Models.User) (db : Db) (n : nat) :
  resolves_to env db session_id uid u ->
  pending db = ∅ -> commit_fails db = false ->
  table (redeliver (Fullfillment.fulfill_service env session_id) (S n) db)
  = table (redeliver (Fullfillment.fulfill_service env session_id) 1 db)
  /\ Models.has_access
       <$> table (redeliver (Fullfillment.fulfill_service env session_id) (S n) db) !! uid
     = Some true.
Proof.
  intros Hr Hpe Hcf. simpl.
  assert (H1 : exists u1,
             resolves_to env (snd (Fullfillment.fulfill_service env session_id db))
               session_id uid u1
             /\ Models.has_access u1 = true
             /\ table (snd (Fullfillment.fulfill_service env session_id db)) !! uid
                = Some u1).
  { destruct (Models.has_access u) eqn:Ha.
    - exists u. rewrite (fulfill_service_replay _ _ _ _ _ Hr Ha). simpl.
      destruct Hr as (s & v & Hs & Hp & Hv & Hi & Hf).
      split; [exists s, v; auto 6|]. split; [exact Ha|].
      exact (find_user_clean _ _ _ Hpe Hf).
    - destruct (fulfill_service_grants _ _ _ _ _ Hr Hpe Hcf Ha)
        as (db' & E & Ht & Hp' & _ & _ & Hq').
      exists (Models.set_has_access true u). rewrite E. simpl.
      destruct Hr as (s & v & Hs & Hp & Hv & Hi & Hf).
      assert (Hl : table db' !! uid = Some (Models.set_has_access true u))
        by (rewrite Ht; apply lookup_insert_eq).
      split; [|split; [reflexivity | exact Hl]].
      exists s, v. repeat split; auto.
      rewrite find_user_table by assumption. exact Hl. }
  destruct H1 as (u1 & Hr1 & Ha1 & Hl1).
  destruct (redeliver_replay env session_id uid u1 n _ Hr1 Ha1) as [Ht _].
  rewrite Ht. split; [reflexivity|]. rewrite Hl1. simpl. rewrite Ha1. reflexivity.
Qed.

Lemma redelivery_is_idempotent_witness :
  table (redeliver (Fullfillment.fulfill_service Scenario.env0 "cs_1") 5 Scenario.db0)
  = table (redeliver (Fullfillment.fulfill_service Scenario.env0 "cs_1") 1 Scenario.db0)
  /\ Models.has_access
       <$> table (redeliver (Fullfillment.fulfill_service Scenario.env0 "cs_1") 5
                    Scenario.db0) !! 42
     = Some true.
Proof.
  apply (redelivery_is_idempotent Scenario.env0 "cs_1" 42 Scenario.user42
           Scenario.db0 4).
  - apply (cs_1_resolves _ Scenario.user42). reflexivity.
  - reflexivity.
  - reflexivity.
Defined.

(** ** Invoices *)

(** X20 (webhook-handler.py): the user identifier of an invoice survives
    the round trip through its metadata: if "user_id" holds the printed
    form of [n], [extract_user_id_from_invoice] returns [n], whatever the
    subscription and the other metadata. *)
Theorem invoice_user_id_round_trip (invoice : StripeObject) (n : Z) :
  obj_metadata invoice !! "user_id" = Some (Py.str n) ->
  WebhookHandler.extract_user_id_from_invoice invoice = Some n.
Proof.
  intros H. unfold WebhookHandler.extract_user_id_from_invoice.
  rewrite (truthy_str_Some _ _ H) by apply PyFacts.str_nonempty.
  apply PyFacts.int_str.
Qed.

Lemma invoice_user_id_round_trip_witness :
  WebhookHandler.extract_user_id_from_invoice Scenario.in_1 = Some 42.
Proof.
  apply (invoice_user_id_round_trip Scenario.in_1 42). reflexivity.
Defined.

(** X21 (webhook-handler.py): an invoice that names the identifier 0 is
    treated as naming no user: both invoice handlers return without a
    single store operation, even when a user is stored under 0. *)
Theorem invoice_user_zero_ignored (invoice : StripeObject) (db : Db) :
  WebhookHandler.extract_user_id_from_invoice invoice = Some 0 ->
  WebhookHandler.handle_invoice_payment_succeeded invoice db = (Ok tt, db)
  /\ WebhookHandler.handle_invoice_payment_failed invoice db = (Ok tt, db).
Proof.
  intros H.
  unfold WebhookHandler.handle_invoice_payment_succeeded,
    WebhookHandler.handle_invoice_payment_failed.
  rewrite H. split; reflexivity.
Qed.

Lemma invoice_user_zero_ignored_witness :
  is_Some (find_user Outage.db_zero 0)
  /\ WebhookHandler.handle_invoice_payment_succeeded Outage.in_zero Outage.db_zero
     = (Ok tt, Outage.db_zero)
  /\ WebhookHandler.handle_invoice_payment_failed Outage.in_zero Outage.db_zero
     = (Ok tt, Outage.db_zero).
Proof.
  split; [vm_compute; eauto|].
  apply (invoice_user_zero_ignored Outage.in_zero Outage.db_zero). reflexivity.
Defined.

Lemma truthy_id_nonzero (uid : Z) :
  uid <> 0 -> WebhookHandler.truthy_id (Some uid) = Some uid.
Proof. destruct uid; [congruence | reflexivity ..]. Qed.

(** X22 (webhook-handler.py): an invoice that names an identifier with no
    row in [users] is dropped after the lookup: when the store answers
    the query, both invoice handlers return normally, the session has
    seen that one query and nothing else. *)
Theorem invoice_unknown_user_dropped (invoice : StripeObject) (uid : Z) (db : Db) :
  WebhookHandler.extract_user_id_from_invoice invoice = Some uid ->
  uid <> 0 ->
  query_fails db = false ->
  find_user db uid = None ->
  WebhookHandler.handle_invoice_payment_succeeded invoice db
    = (Ok tt, log (OpQuery uid) db)
  /\ WebhookHandler.handle_invoice_payment_failed invoice db
     = (Ok tt, log (OpQuery uid) db).
Proof.
  intros He Hz Hq Hf.
  unfold WebhookHandler.handle_invoice_payment_succeeded,
    WebhookHandler.handle_invoice_payment_failed.
  rewrite He, (truthy_id_nonzero _ Hz). run_m. rewrite Hq, Hf.
  split; reflexivity.
Qed.

Lemma invoice_unknown_user_dropped_witness :
  WebhookHandler.handle_invoice_payment_succeeded Outage.in_unknown Scenario.db0
    = (Ok tt, log (OpQuery 99) Scenario.db0)
  /\ WebhookHandler.handle_invoice_payment_failed Outage.in_unknown Scenario.db0
     = (Ok tt, log (OpQuery 99) Scenario.db0).
Proof.
  apply (invoice_unknown_user_dropped Outage.in_unknown 99 Scenario.db0).
  - reflexivity.
  - discriminate.
  - reflexivity.
  - reflexivity.
Defined.

(** X23 (webhook-handler.py): on a successful renewal whose invoice
    resolves to a user the store returns, the handler queries that user,
    assigns [True] to the instance's [has_platform_access] and commits,
    whatever the flag was before; no other user's state changes. *)
Theorem renewal_confirms_access
    (invoice : StripeObject) (uid : Z) (u : Models.User) (db : Db) :
  WebhookHandler.extract_user_id_from_invoice invoice = Some uid ->
  uid <> 0 ->
  find_user db uid = Some u ->
  commit_fails db = false ->
  exists db',
    WebhookHandler.handle_invoice_payment_succeeded invoice db = (Ok tt, db')
    /\ trace db'
       = (trace db
            ++ [OpQuery uid; OpSetAttr uid "has_platform_access" true; OpCommit])%list
    /\ forall uid', uid' <> uid -> find_user db' uid' = find_user db uid'.
Proof.
  intros He Hz Hf Hcf.
  destruct (find_user_Some _ _ _ Hf) as [Hq _].
  unfold WebhookHandler.handle_invoice_payment_succeeded.
  rewrite He, (truthy_id_nonzero _ Hz). run_m. rewrite Hq, Hf. simpl.
  unfold setattr, commit. simpl. rewrite Hcf. simpl.
  eexists. split; [reflexivity|]. simpl. split.
  - rewrite <- !app_assoc. reflexivity.
  - intros uid' _. unfold find_user. simpl.
    rewrite (left_id_L ∅ (∪)). reflexivity.
Qed.

Lemma renewal_confirms_access_witness :
  exists db',
    WebhookHandler.handle_invoice_payment_succeeded Scenario.in_1 Scenario.db0
      = (Ok tt, db')
    /\ trace db'
       = (trace Scenario.db0
            ++ [OpQuery 42; OpSetAttr 42 "has_platform_access" true; OpCommit])%list
    /\ forall uid', uid' <> 42 -> find_user db' uid' = find_user Scenario.db0 uid'.
Proof.
  apply (renewal_confirms_access Scenario.in_1 42 Scenario.user42 Scenario.db0).
  - reflexivity.
  - discriminate.
  - reflexivity.
  - reflexivity.
Defined.

(** X24 (webhook-handler.py): a failed commit in an invoice handler is
    swallowed: both handlers roll back and return normally, nothing is
    left pending and no row has changed. *)
Theorem invoice_commit_failure_rolled_back
    (invoice : StripeObject) (uid : Z) (u : Models.User) (db : Db) :
  WebhookHandler.extract_user_id_from_invoice invoice = Some uid ->
  uid <> 0 ->
  find_user db uid = Some u ->
  pending db = ∅ -> commit_fails db = true ->
  (exists db',
      WebhookHandler.handle_invoice_payment_succeeded invoice db = (Ok tt, db')
      /\ table db' = table db /\ pending db' = ∅
      /\ trace db'
         = (trace db ++ [OpQuery uid; OpSetAttr uid "has_platform_access" true;
                         OpCommit; OpRollback])%list)
  /\ (exists db',
      WebhookHandler.handle_invoice_payment_failed invoice db = (Ok tt, db')
      /\ table db' = table db /\ pending db' = ∅
      /\ trace db'
         = (trace db ++ [OpQuery uid; OpSetAttr uid "has_platform_access" false;
                         OpCommit; OpRollback])%list).
Proof.
  intros He Hz Hf Hpe Hcf.
  destruct (find_user_Some _ _ _ Hf) as [Hq _].
  unfold WebhookHandler.handle_invoice_payment_succeeded,
    WebhookHandler.handle_invoice_payment_failed.
  rewrite He, (truthy_id_nonzero _ Hz). run_m. rewrite Hq, Hf. simpl.
  unfold setattr, commit, rollback. simpl. rewrite Hcf. simpl.
  split; (eexists; split; [reflexivity|]; simpl; repeat split;
          rewrite <- !app_assoc; reflexivity).
Qed.

Lemma invoice_commit_failure_rolled_back_witness :
  (exists db',
      WebhookHandler.handle_invoice_payment_succeeded Scenario.in_1 Outage.db_down
        = (Ok tt, db')
      /\ table db' = table Outage.db_down /\ pending db' = ∅
      /\ trace db'
         = (trace Outage.db_down
              ++ [OpQuery 42; OpSetAttr 42 "has_platform_access" true;
                  OpCommit; OpRollback])%list)
  /\ (exists db',
      WebhookHandler.handle_invoice_payment_failed Scenario.in_1 Outage.db_down
        = (Ok tt, db')
      /\ table db' = table Outage.db_down /\ pending db' = ∅
      /\ trace db'
         = (trace Outage.db_down
              ++ [OpQuery 42; OpSetAttr 42 "has_platform_access" false;
                  OpCommit; OpRollback])%list).
Proof.
  apply (invoice_commit_failure_rolled_back Scenario.in_1 42 Scenario.user42
           Outage.db_down).
  - reflexivity.
  - discriminate.
  - reflexivity.
  - reflexivity.
  - reflexivity.
Defined.

(** ** The endpoints and the table *)

(** X25 (webhook-handler.py, main.py): on a clean session no request,
    verified or not, of any event type, changes a row of [users] through
    either endpoint: every assignment these two files make goes to
    [has_platform_access], which [users] does not map. *)
Theorem webhook_endpoints_keep_rows
    (env : Env) (request : Request) (db : Db) :
  pending db = ∅ ->
  table (snd (WebhookHandler.stripe_webhook env request db)) = table db
  /\ table (snd (Main.serve env request db)) = table db.
Proof.
  intros Hpe. split.
  - unfold WebhookHandler.stripe_webhook.
    destruct (Webhook_construct_event env (body request) _ _) as [event|e];
      [|destruct e; reflexivity].
    destruct (has_platform_access_inert env (obj_id (ev_object event))
                (ev_object event) db Hpe) as (Hw & _ & Hs & Hf).
    destruct (WebhookHandler.is_checkout_event (ev_type event)).
    + unfold mbind, M_bind.
      destruct (WebhookHandler.fulfill_service env (obj_id (ev_object event)) db)
        as [[[]|e] d]; exact Hw.
    + unfold mbind, M_bind.
      repeat match goal with
             | |- context [if String.eqb ?a ?b then _ else _] =>
                 destruct (String.eqb a b)
             end;
        try reflexivity.
      * destruct (WebhookHandler.handle_invoice_payment_succeeded
                    (ev_object event) db) as [[[]|e] d]; exact Hs.
      * destruct (WebhookHandler.handle_invoice_payment_failed
                    (ev_object event) db) as [[[]|e] d]; exact Hf.
  - unfold Main.serve, Main.stripe_webhook.
    destruct (Webhook_construct_event env (body request) _ _) as [event|e];
      [|destruct e; reflexivity].
    destruct (has_platform_access_inert env (obj_id (ev_object event))
                (ev_object event) db Hpe) as (_ & Hm & _ & _).
    destruct (fulfill_order_returns env (obj_id (ev_object event)) db) as (d & E).
    rewrite E in Hm. simpl in Hm.
    destruct (Main.is_checkout_event (ev_type event)); simpl.
    + rewrite E. exact Hm.
    + repeat match goal with
             | |- context [if String.eqb ?a ?b then _ else _] =>
                 destruct (String.eqb a b)
             end; reflexivity.
Qed.

Lemma webhook_endpoints_keep_rows_witness :
  table (snd (WebhookHandler.stripe_webhook Scenario.env0
                (Scenario.mk_request "completed") Scenario.db0))
    = table Scenario.db0
  /\ table (snd (Main.serve Scenario.env0 (Scenario.mk_request "completed")
                   Scenario.db0))
     = table Scenario.db0.
Proof.
  apply (webhook_endpoints_keep_rows Scenario.env0 (Scenario.mk_request "completed")
           Scenario.db0).
  reflexivity.
Defined.

(** ** A store that does not answer *)

(** X26 (fullfillment.py, webhook-handler.py): when the store does not
    answer the user lookup of a paid session whose "cartID" reads [uid],
    fullfillment.py swallows the failure and returns [False], while
    webhook-handler.py lets the exception reach its caller; either way the
    session has seen that one query and nothing else. *)
Theorem lookup_failure_outcomes
    (env : Env) (session_id : string) (s : CheckoutSession) (uid : Z) (db : Db) :
  Session_retrieve env session_id = Ok s ->
  payment_status s = "paid" ->
  cart_user_id (metadata s) = Some uid ->
  query_fails db = true ->
  Fullfillment.fulfill_service env session_id db = (Ok false, log (OpQuery uid) db)
  /\ exists e,
       WebhookHandler.fulfill_service env session_id db
       = (Raise e, log (OpQuery uid) db).
Proof.
  intros Hs Hp Hc Hq. unfold cart_user_id in Hc.
  destruct (Py.truthy_str (metadata s !! "cartID")) as [v|] eqn:Hv;
    simpl in Hc; [|discriminate Hc].
  unfold Fullfillment.fulfill_service, WebhookHandler.fulfill_service.
  run_m. rewrite Hs. simpl. rewrite Hp. simpl. rewrite Hv. simpl.
  rewrite Hc. simpl. rewrite Hq. simpl.
  split; [reflexivity | eexists; reflexivity].
Qed.

Lemma lookup_failure_outcomes_witness :
  Fullfillment.fulfill_service Scenario.env0 "cs_1" Outage.db_deaf
    = (Ok false, log (OpQuery 42) Outage.db_deaf)
  /\ exists e,
       WebhookHandler.fulfill_service Scenario.env0 "cs_1" Outage.db_deaf
       = (Raise e, log (OpQuery 42) Outage.db_deaf).
Proof.
  apply (lookup_failure_outcomes Scenario.env0 "cs_1" Scenario.cs_1 42 Outage.db_deaf).
  - reflexivity.
  - reflexivity.
  - reflexivity.
  - reflexivity.
Defined.

(** X27 (payment-link.py): when the store does not answer the user lookup,
    the endpoint raises what the lookup raised, whatever the request: the
    provider is not called, the session has seen the query only, and the
    answer is the framework's 500. *)
Theorem payment_link_lookup_failure
    (env : Env) (request : PaymentLink.PaymentLinkRequest) (db : Db) :
  query_fails db = true ->
  snd (PaymentLink.create_payment_link env request db)
    = log (OpQuery (PaymentLink.user_id request)) db
  /\ http_response (fst (PaymentLink.create_payment_link env request db))
     = internal_error_response.
Proof.
  intros Hq. unfold PaymentLink.create_payment_link. run_m. rewrite Hq.
  split; reflexivity.
Qed.

Lemma payment_link_lookup_failure_witness :
  let request := {| PaymentLink.user_id := 42; PaymentLink.plan := "gold" |} in
  snd (PaymentLink.create_payment_link Scenario.env0 request Outage.db_deaf)
    = log (OpQuery 42) Outage.db_deaf
  /\ http_response (fst (PaymentLink.create_payment_link Scenario.env0 request
                           Outage.db_deaf))
     = internal_error_response.
Proof.
  apply (payment_link_lookup_failure Scenario.env0
           {| PaymentLink.user_id := 42; PaymentLink.plan := "gold" |}
           Outage.db_deaf).
  reflexivity.
Defined.
